(** * WasbHook: the Azure Blob Storage hook of
      airflow/providers/microsoft/azure/hooks/wasb.py

    The hook is a facade over a [BlockBlobService] client of the legacy
    azure-storage SDK.  Every method is a short Python body that calls the
    client held in [self.connection].  The embedding keeps that shape:

    - a hook method is a program ([prog]) whose only effects are calls to
      collaborators (the connection registry, the SDK client, the logger)
      and raised exceptions;
    - the collaborators are not part of the repository, so a program is run
      against an arbitrary handler ([sdk]) that answers each call and
      threads its own state;
    - running a program records the calls it issued, in order, which is what
      the statements about ordering, arguments and handles are about. *)

From stdpp Require Import base option strings gmap list sorting.

(* String literals; [++] stays list concatenation, strings are joined with [+:+]. *)
Open Scope string_scope.
Open Scope list_scope.

(** ** Python values, keyword arguments, exceptions *)

(** The Python values that travel through the hook untouched. *)
Inductive pyval : Type :=
| VNone
| VBool (b : bool)
| VInt (n : Z)
| VStr (s : string).

#[global] Instance pyval_eq_dec : EqDecision pyval.
Proof. solve_decision. Defined.

(** A [**kwargs] mapping: a Python dict with string keys. *)
Abbreviation Kwargs := (gmap string pyval).

(** Exceptions seen by a caller of the hook.  [AirflowException] is the only
    one the hook raises itself; [TypeError] is raised by the Python call
    protocol; [SdkError] stands for whatever a collaborator raises. *)
Inductive exn : Type :=
| AirflowException (msg : string)
| TypeError (msg : string)
| SdkError (code : string).

#[global] Instance exn_eq_dec : EqDecision exn.
Proof. solve_decision. Defined.

(** An entry of a blob listing, and the object returned by a download. *)
Record Blob : Type := mkBlob { name : string; content : pyval }.

#[global] Instance Blob_eq_dec : EqDecision Blob.
Proof. solve_decision. Defined.

(** What [BaseHook.get_connection] returns: the fields the hook reads. *)
Record Connection : Type := mkConnection {
  login : pyval;
  password : pyval;
  extra_dejson : Kwargs
}.

(** A live [BlockBlobService] object, identified by the order of creation. *)
Definition handle := nat.

(** ** Calls to collaborators *)

(** One constructor per primitive the hook calls.  Positional arguments are
    fields; the keyword arguments of the call are the last field, the
    explicit ones of the call site already merged in. *)
Inductive call : Type :=
| GetConnection (conn_id : string)
| NewBlockBlobService (kw : Kwargs)
| Exists (h : handle) (container_name blob_name : string) (kw : Kwargs)
| ListBlobs (h : handle) (container_name prefix : string) (kw : Kwargs)
| CreateBlobFromPath (h : handle) (container_name blob_name file_path : string) (kw : Kwargs)
| CreateBlobFromText (h : handle) (container_name blob_name text : string) (kw : Kwargs)
| GetBlobToPath (h : handle) (container_name blob_name file_path : string) (kw : Kwargs)
| GetBlobToText (h : handle) (container_name blob_name : string) (kw : Kwargs)
| DeleteBlob (h : handle) (container_name blob_name : string) (kw : Kwargs).

#[global] Instance call_eq_dec : EqDecision call.
Proof. solve_decision. Defined.

(** The type of the value a call returns when it does not raise. *)
Definition resp (c : call) : Type :=
  match c with
  | GetConnection _ => Connection
  | NewBlockBlobService _ => handle
  | Exists _ _ _ _ => bool
  | ListBlobs _ _ _ _ => list Blob
  | CreateBlobFromPath _ _ _ _ _ => unit
  | CreateBlobFromText _ _ _ _ _ => unit
  | GetBlobToPath _ _ _ _ _ => Blob
  | GetBlobToText _ _ _ _ => Blob
  | DeleteBlob _ _ _ _ => unit
  end.

(** ** Programs *)

Inductive prog (A : Type) : Type :=
| Ret (a : A)
| Raise (e : exn)
| Log (msg : string) (k : prog A)
| Do (c : call) (k : resp c → prog A).

Arguments Ret {A} a.
Arguments Raise {A} e.
Arguments Log {A} msg k.
Arguments Do {A} c k.

Fixpoint bind {A B : Type} (p : prog A) (f : A → prog B) : prog B :=
  match p with
  | Ret a => f a
  | Raise e => Raise e
  | Log msg k => Log msg (bind k f)
  | Do c k => Do c (λ x, bind (k x) f)
  end.

Notation "'let*' x := p 'in' q" := (bind p (λ x, q))
  (at level 10, x name, p at level 100, q at level 200,
   format "'[v' 'let*'  x  :=  p  'in'  '/' q ']'").
Notation "p >> q" := (bind p (λ _, q))
  (at level 100, q at level 200, right associativity,
   format "'[v' p  >>  '/' q ']'").

(** Emit one informational log record. *)
Definition log_info (msg : string) : prog unit := Log msg (Ret tt).

(** A call site [f(..., k=v, **kw)] that passes the keyword [k] itself:
    Python refuses the call with a [TypeError] when [kw] has the key [k]
    too, before the callee runs. *)
Definition keyword_free (k : string) (kw : Kwargs) : prog unit :=
  match kw !! k with
  | Some _ => Raise (TypeError ("got multiple values for keyword argument '" +:+ k +:+ "'"))
  | None => Ret tt
  end.

(** The keyword arguments the callee of [f(..., k=v, **kw)] receives. *)
Definition with_keyword (k : string) (v : pyval) (kw : Kwargs) : prog Kwargs :=
  keyword_free k kw >> Ret (<[k := v]> kw).

(** The connection registry of the framework. *)
Module BaseHook.
Definition get_connection (conn_id : string) : prog Connection :=
  Do (GetConnection conn_id) Ret.
End BaseHook.

(** The methods of the SDK client the hook uses, as calls on a handle. *)
Module BlockBlobService.
Definition new (kw : Kwargs) : prog handle :=
  Do (NewBlockBlobService kw) Ret.
Definition exists_ (h : handle) (container_name blob_name : string) (kw : Kwargs)
  : prog bool := Do (Exists h container_name blob_name kw) Ret.
Definition list_blobs (h : handle) (container_name prefix : string) (kw : Kwargs)
  : prog (list Blob) := Do (ListBlobs h container_name prefix kw) Ret.
Definition create_blob_from_path (h : handle) (container_name blob_name file_path : string)
    (kw : Kwargs) : prog unit :=
  Do (CreateBlobFromPath h container_name blob_name file_path kw) Ret.
Definition create_blob_from_text (h : handle) (container_name blob_name text : string)
    (kw : Kwargs) : prog unit :=
  Do (CreateBlobFromText h container_name blob_name text kw) Ret.
Definition get_blob_to_path (h : handle) (container_name blob_name file_path : string)
    (kw : Kwargs) : prog Blob :=
  Do (GetBlobToPath h container_name blob_name file_path kw) Ret.
Definition get_blob_to_text (h : handle) (container_name blob_name : string) (kw : Kwargs)
  : prog Blob := Do (GetBlobToText h container_name blob_name kw) Ret.
Definition delete_blob (h : handle) (container_name blob_name : string) (kw : Kwargs)
  : prog unit := Do (DeleteBlob h container_name blob_name kw) Ret.
End BlockBlobService.

(** ** Running a program against the collaborators *)

Inductive outcome (A : Type) : Type :=
| Returned (a : A)
| Raised (e : exn).

Arguments Returned {A} a.
Arguments Raised {A} e.

(** What an observer of the collaborators sees: a log record, or a call
    together with the exception it raised, if any. *)
Inductive event : Type :=
| Logged (msg : string)
| Called (c : call) (failure : option exn).

#[global] Instance event_eq_dec : EqDecision event.
Proof. solve_decision. Defined.

Definition failure_of {A : Type} (o : outcome A) : option exn :=
  match o with
  | Returned _ => None
  | Raised e => Some e
  end.

Section Run.
Context {St : Type}.

(** The collaborators: every call is answered by a value or an exception,
    and may change the collaborators' state. *)
Variable sdk : ∀ c : call, St → outcome (resp c) * St.

Fixpoint run {A : Type} (p : prog A) (s : St) : outcome A * St * list event :=
  match p with
  | Ret a => (Returned a, s, [])
  | Raise e => (Raised e, s, [])
  | Log msg k =>
      let '(r, s', t) := run k s in (r, s', Logged msg :: t)
  | Do c k =>
      match sdk c s with
      | (Returned x, s1) =>
          let '(r, s', t) := run (k x) s1 in (r, s', Called c None :: t)
      | (Raised e, s1) => (Raised e, s1, [Called c (Some e)])
      end
  end.

Definition result {A : Type} (p : prog A) (s : St) : outcome A := (run p s).1.1.
Definition final {A : Type} (p : prog A) (s : St) : St := (run p s).1.2.
Definition trace {A : Type} (p : prog A) (s : St) : list event := (run p s).2.
End Run.

(** ** The hook *)

Module WasbHook.

Definition conn_name_attr : string := "wasb_conn_id".
Definition default_conn_name : string := "wasb_default".
Definition conn_type : string := "wasb".

(** The attributes [__init__] sets on the instance. *)
Record t : Type := mk { conn_id : string; connection : handle }.

(** [get_conn], reading [self.conn_id]. *)
Definition get_conn (conn_id : string) : prog handle :=
  let* conn := BaseHook.get_connection conn_id in
  let service_options := extra_dejson conn in
  let* kw := with_keyword "account_key" (password conn) service_options in
  let* kw := with_keyword "account_name" (login conn) kw in
  BlockBlobService.new kw.

Definition __init__ (wasb_conn_id : string) : prog t :=
  let* connection := get_conn wasb_conn_id in
  Ret {| conn_id := wasb_conn_id; connection := connection |}.

Definition check_for_blob (self : t) (container_name blob_name : string)
    (kwargs : Kwargs) : prog bool :=
  BlockBlobService.exists_ (connection self) container_name blob_name kwargs.

Definition check_for_prefix (self : t) (container_name prefix : string)
    (kwargs : Kwargs) : prog bool :=
  let* kw := with_keyword "num_results" (VInt 1) kwargs in
  let* matches := BlockBlobService.list_blobs (connection self) container_name prefix kw in
  Ret (bool_decide (0 < length matches)).

Definition get_blobs_list (self : t) (container_name prefix : string)
    (kwargs : Kwargs) : prog (list Blob) :=
  BlockBlobService.list_blobs (connection self) container_name prefix kwargs.

Definition load_file (self : t) (file_path container_name blob_name : string)
    (kwargs : Kwargs) : prog unit :=
  BlockBlobService.create_blob_from_path (connection self) container_name blob_name
    file_path kwargs.

Definition load_string (self : t) (string_data container_name blob_name : string)
    (kwargs : Kwargs) : prog unit :=
  BlockBlobService.create_blob_from_text (connection self) container_name blob_name
    string_data kwargs.

Definition get_file (self : t) (file_path container_name blob_name : string)
    (kwargs : Kwargs) : prog Blob :=
  BlockBlobService.get_blob_to_path (connection self) container_name blob_name
    file_path kwargs.

Definition read_file (self : t) (container_name blob_name : string)
    (kwargs : Kwargs) : prog pyval :=
  let* blob := BlockBlobService.get_blob_to_text (connection self) container_name
                 blob_name kwargs in
  Ret (content blob).

(** The first statement of [delete_file]: the names to delete. *)
Definition blobs_to_delete (self : t) (container_name blob_name : string)
    (is_prefix : bool) (kwargs : Kwargs) : prog (list string) :=
  if is_prefix then
    keyword_free "prefix" kwargs >>
    let* blobs := BlockBlobService.list_blobs (connection self) container_name
                    blob_name kwargs in
    Ret (name <$> blobs)
  else
    let* found := check_for_blob self container_name blob_name ∅ in
    if found then Ret [blob_name] else Ret [].

(** The [for] loop of [delete_file]. *)
Fixpoint delete_each (self : t) (container_name : string)
    (blobs_to_delete : list string) (kwargs : Kwargs) : prog unit :=
  match blobs_to_delete with
  | [] => Ret tt
  | blob_uri :: rest =>
      log_info ("Deleting blob: " +:+ blob_uri) >>
      let* kw := with_keyword "delete_snapshots" (VStr "include") kwargs in
      BlockBlobService.delete_blob (connection self) container_name blob_uri kw >>
      delete_each self container_name rest kwargs
  end.

Definition delete_file (self : t) (container_name blob_name : string)
    (is_prefix ignore_if_missing : bool) (kwargs : Kwargs) : prog unit :=
  let* blobs := blobs_to_delete self container_name blob_name is_prefix kwargs in
  if negb ignore_if_missing && bool_decide (length blobs = 0) then
    Raise (AirflowException ("Blob(s) not found: " +:+ blob_name))
  else
    delete_each self container_name blobs kwargs.

End WasbHook.

(** ** A reference client: one storage account held in memory *)

(** Modelled from the spec: the Blob Storage SDK client, the connection
    registry and the local file system are collaborators outside the
    repository.  The reference client keeps the blobs of one storage account
    in a map from (container, blob name) to content; every handle is a client
    of that account, every container exists, and blobs have no snapshots or
    leases.  It knows the keywords [timeout] (ignored), [num_results] of
    [list_blobs] and [delete_snapshots] of [delete_blob]; any other keyword
    is refused the way Python refuses an unknown keyword. *)
Module Reference.

Record World : Type := mkWorld {
  registry : gmap string Connection;
  clients : nat;
  blobs : gmap (string * string) string;
  files : gmap string string
}.

Definition set_blobs (f : gmap (string * string) string → gmap (string * string) string)
    (w : World) : World :=
  {| registry := registry w; clients := clients w;
     blobs := f (blobs w); files := files w |}.

Definition set_files (f : gmap string string → gmap string string) (w : World) : World :=
  {| registry := registry w; clients := clients w;
     blobs := blobs w; files := f (files w) |}.

(** The keywords of [kw] the callee does not know. *)
Definition unexpected (known : list string) (kw : Kwargs) : list string :=
  filter (λ k, k ∉ known) (map_to_list kw).*1.

Definition accepts (known : list string) (kw : Kwargs) : bool :=
  bool_decide (unexpected known kw = []).

Definition unexpected_keyword : exn :=
  TypeError "got an unexpected keyword argument".

Definition not_found : exn := SdkError "BlobNotFound".

(** The service lists names in lexicographic order. *)
Definition name_le (a b : string) : Prop := String.leb a b = true.

#[global] Instance name_le_dec a b : Decision (name_le a b).
Proof. unfold name_le. apply _. Defined.

(** The names of the blobs of [container_name] that start with [prefix]. *)
Definition matching (container_name prefix : string)
    (m : gmap (string * string) string) : list string :=
  merge_sort name_le
    (filter (λ k, k.1 = container_name ∧ String.prefix prefix k.2 = true)
       (map_to_list m).*1).*2.

(** The result-count cap of a listing. *)
Definition capped (kw : Kwargs) (l : list string) : outcome (list string) :=
  match kw !! "num_results" with
  | None | Some VNone => Returned l
  | Some (VInt n) =>
      if decide (0 < n)%Z then Returned (take (Z.to_nat n) l)
      else Raised (SdkError "OutOfRangeQueryParameterValue")
  | Some _ => Raised (TypeError "num_results must be an integer")
  end.

Definition listed (n : string) : Blob := {| name := n; content := VNone |}.

Definition sdk (c : call) (w : World) : outcome (resp c) * World :=
  match c with
  | GetConnection conn_id =>
      match registry w !! conn_id with
      | Some conn => (Returned conn, w)
      | None =>
          (Raised (AirflowException ("The conn_id `" +:+ conn_id +:+ "` isn't defined")), w)
      end
  | NewBlockBlobService kw =>
      match kw !! "account_name" with
      | Some (VStr _) =>
          (Returned (clients w),
           {| registry := registry w; clients := S (clients w);
              blobs := blobs w; files := files w |})
      | _ => (Raised (SdkError "ValueError"), w)
      end
  | Exists _ container_name blob_name kw =>
      if accepts ["timeout"] kw then
        (Returned (bool_decide (is_Some (blobs w !! (container_name, blob_name)))), w)
      else (Raised unexpected_keyword, w)
  | ListBlobs _ container_name prefix kw =>
      if accepts ["num_results"; "timeout"] kw then
        match capped kw (matching container_name prefix (blobs w)) with
        | Returned l => (Returned (listed <$> l), w)
        | Raised e => (Raised e, w)
        end
      else (Raised unexpected_keyword, w)
  | CreateBlobFromPath _ container_name blob_name file_path kw =>
      if accepts ["timeout"] kw then
        match files w !! file_path with
        | Some data => (Returned tt, set_blobs <[(container_name, blob_name) := data]> w)
        | None => (Raised (SdkError "FileNotFoundError"), w)
        end
      else (Raised unexpected_keyword, w)
  | CreateBlobFromText _ container_name blob_name text kw =>
      if accepts ["timeout"] kw then
        (Returned tt, set_blobs <[(container_name, blob_name) := text]> w)
      else (Raised unexpected_keyword, w)
  | GetBlobToPath _ container_name blob_name file_path kw =>
      if accepts ["timeout"] kw then
        match blobs w !! (container_name, blob_name) with
        | Some data =>
            (Returned {| name := blob_name; content := VNone |},
             set_files <[file_path := data]> w)
        | None => (Raised not_found, w)
        end
      else (Raised unexpected_keyword, w)
  | GetBlobToText _ container_name blob_name kw =>
      if accepts ["timeout"] kw then
        match blobs w !! (container_name, blob_name) with
        | Some data => (Returned {| name := blob_name; content := VStr data |}, w)
        | None => (Raised not_found, w)
        end
      else (Raised unexpected_keyword, w)
  | DeleteBlob _ container_name blob_name kw =>
      if accepts ["delete_snapshots"; "timeout"] kw then
        match blobs w !! (container_name, blob_name) with
        | Some _ => (Returned tt, set_blobs (delete (container_name, blob_name)) w)
        | None => (Raised not_found, w)
        end
      else (Raised unexpected_keyword, w)
  end.

(** Whether the account holds the blob [(c, b)]. *)
Definition has_blob (w : World) (c b : string) : bool :=
  bool_decide (is_Some (blobs w !! (c, b))).

(** An account with no blob, one local file and the default connection. *)
Definition empty_world : World :=
  {| registry := {[ WasbHook.default_conn_name :=
                      {| login := VStr "account"; password := VStr "key";
                         extra_dejson := ∅ |} ]};
     clients := 0;
     blobs := ∅;
     files := {[ "/tmp/report.csv" := "a,b" ]} |}.

(** The account reached through a connection whose extra field repeats the
    account name. *)
Definition misconfigured_world : World :=
  {| registry := {[ WasbHook.default_conn_name :=
                      {| login := VStr "account"; password := VStr "key";
                         extra_dejson := {[ "account_name" := VStr "other" ]} |} ]};
     clients := 0;
     blobs := ∅;
     files := ∅ |}.

(** A hook on the first client of the account. *)
Definition hook : WasbHook.t :=
  {| WasbHook.conn_id := WasbHook.default_conn_name; WasbHook.connection := 0 |}.

(** The same account with a few blobs in two containers. *)
Definition sample_world : World :=
  set_blobs (λ _, list_to_map
    [(("c", "a/1.txt"), "hello"); (("c", "a/2.txt"), "x"); (("c", "a/3.txt"), "y");
     (("c", "b.txt"), "z"); (("d", "a/1.txt"), "w")]) empty_world.

(** The reference client behind a service that is unavailable for one blob:
    deleting that blob raises, every other call goes through. *)
Definition sdk_unavailable (container_name blob_name : string) (c : call) (w : World)
    : outcome (resp c) * World :=
  match c as c0 return outcome (resp c0) * World with
  | DeleteBlob h c' b' kw =>
      if decide (c' = container_name ∧ b' = blob_name)
      then (Raised (SdkError "ServerBusy"), w)
      else sdk (DeleteBlob h c' b' kw) w
  | c0 => sdk c0 w
  end.

End Reference.

(** ** Observations on a trace *)

(** The two events one turn of the loop produces for the name [b]: the log
    record, then the call, with the exception the call raised, if any. *)
Definition deletion (self : WasbHook.t) (container_name : string) (kwargs : Kwargs)
    (b : string) (failure : option exn) : list event :=
  [Logged ("Deleting blob: " +:+ b);
   Called (DeleteBlob (WasbHook.connection self) container_name b
             (<["delete_snapshots" := VStr "include"]> kwargs)) failure].

(** The events of a loop that deletes all of [bs]. *)
Definition deletions (self : WasbHook.t) (container_name : string) (kwargs : Kwargs)
    (bs : list string) : list event :=
  bs ≫= λ b, deletion self container_name kwargs b None.

Definition duplicate_delete_snapshots : exn :=
  TypeError "got multiple values for keyword argument 'delete_snapshots'".




(** The client a call is made on, if it is a call on a client. *)
Definition handle_of (c : call) : option handle :=
  match c with
  | GetConnection _ | NewBlockBlobService _ => None
  | Exists h _ _ _ | ListBlobs h _ _ _
  | CreateBlobFromPath h _ _ _ _ | CreateBlobFromText h _ _ _ _
  | GetBlobToPath h _ _ _ _ | GetBlobToText h _ _ _
  | DeleteBlob h _ _ _ => Some h
  end.

(** The clients the calls of a trace were made on, in order. *)
Definition handles_used (t : list event) : list handle :=
  omap (λ ev, match ev with Called c _ => handle_of c | Logged _ => None end) t.

(** The keyword arguments of the client constructions of a trace. *)
Definition constructions (t : list event) : list Kwargs :=
  omap (λ ev, match ev with
              | Called (NewBlockBlobService kw) _ => Some kw
              | _ => None
              end) t.

Definition not_found_message (blob_name : string) : exn :=
  AirflowException ("Blob(s) not found: " +:+ blob_name).

Definition duplicate_prefix : exn :=
  TypeError "got multiple values for keyword argument 'prefix'".

(** The one query [delete_file] makes to find the names to delete. *)
Definition query (self : WasbHook.t) (container_name blob_name : string)
    (is_prefix : bool) (kwargs : Kwargs) : call :=
  if is_prefix then ListBlobs (WasbHook.connection self) container_name blob_name kwargs
  else Exists (WasbHook.connection self) container_name blob_name ∅.

(** An event that is not a call on another client than [h], nor the
    construction of a client, nor a look-up in the connection registry. *)
Definition on_handle (h : handle) (ev : event) : Prop :=
  match ev with
  | Called c _ => handle_of c = Some h
  | Logged _ => True
  end.

(** A program all of whose calls, whatever the answers, satisfy [P]. *)
Fixpoint issues_only (P : call → Prop) {A : Type} (p : prog A) : Prop :=
  match p with
  | Ret _ | Raise _ => True
  | Log _ k => issues_only P k
  | Do c k => P c ∧ ∀ x, issues_only P (k x)
  end.

(** ** Sequences of operations on one hook *)

(** What a method of the hook returns. *)
Inductive retval : Type :=
| RNone
| RBool (b : bool)
| RValue (v : pyval)
| RBlob (b : Blob)
| RBlobs (l : list Blob).

(** A call of one of the eight operations of the hook. *)
Inductive operation : Type :=
| Check_for_blob (container_name blob_name : string) (kwargs : Kwargs)
| Check_for_prefix (container_name prefix : string) (kwargs : Kwargs)
| Get_blobs_list (container_name prefix : string) (kwargs : Kwargs)
| Load_file (file_path container_name blob_name : string) (kwargs : Kwargs)
| Load_string (string_data container_name blob_name : string) (kwargs : Kwargs)
| Get_file (file_path container_name blob_name : string) (kwargs : Kwargs)
| Read_file (container_name blob_name : string) (kwargs : Kwargs)
| Delete_file (container_name blob_name : string) (is_prefix ignore_if_missing : bool)
    (kwargs : Kwargs).

Definition invoke (self : WasbHook.t) (op : operation) : prog retval :=
  match op with
  | Check_for_blob c b kw =>
      let* r := WasbHook.check_for_blob self c b kw in Ret (RBool r)
  | Check_for_prefix c p kw =>
      let* r := WasbHook.check_for_prefix self c p kw in Ret (RBool r)
  | Get_blobs_list c p kw =>
      let* r := WasbHook.get_blobs_list self c p kw in Ret (RBlobs r)
  | Load_file f c b kw =>
      WasbHook.load_file self f c b kw >> Ret RNone
  | Load_string d c b kw =>
      WasbHook.load_string self d c b kw >> Ret RNone
  | Get_file f c b kw =>
      let* r := WasbHook.get_file self f c b kw in Ret (RBlob r)
  | Read_file c b kw =>
      let* r := WasbHook.read_file self c b kw in Ret (RValue r)
  | Delete_file c b is_prefix ignore_if_missing kw =>
      WasbHook.delete_file self c b is_prefix ignore_if_missing kw >> Ret RNone
  end.

(** One step of a caller: an operation and how it ended. *)
Definition step : Type := operation * outcome retval.

(** The step is an upload to the blob [(c, b)] that returned: a [load_file]
    or a [load_string] with that container and that blob name. *)
Definition uploads (c b : string) (st : step) : bool :=
  match st with
  | (Load_file _ c' b' _, Returned _)
  | (Load_string _ c' b' _, Returned _) => bool_decide (c' = c ∧ b' = b)
  | _ => false
  end.

(** The step is a [delete_file] that returned and was aimed at the blob
    [(c, b)]: on its container, with its name or, with [is_prefix], with a
    prefix of its name. *)
Definition deletes (c b : string) (st : step) : bool :=
  match st with
  | (Delete_file c' b' is_prefix _ _, Returned _) =>
      bool_decide (c' = c)
      && (if is_prefix then String.prefix b' b else bool_decide (b' = b))
  | _ => false
  end.

(** Whether the blob [(c, b)] should be there after the steps of [h], when
    [before] tells whether it was there before them. *)
Fixpoint kept (c b : string) (h : list step) (before : bool) : bool :=
  match h with
  | [] => before
  | st :: h' =>
      kept c b h'
        (if uploads c b st then true
         else if deletes c b st then false
         else before)
  end.

Section Sessions.
Context {St : Type}.
Variable sdk : ∀ c : call, St → outcome (resp c) * St.

(** A caller that invokes the operations one after the other and goes on
    after an exception: the state it leaves behind and how each operation
    ended. *)
Fixpoint run_each (self : WasbHook.t) (ops : list operation) (s : St) : St * list step :=
  match ops with
  | [] => (s, [])
  | op :: rest =>
      let '(r, s1, _) := run sdk (invoke self op) s in
      let '(s2, h) := run_each self rest s1 in
      (s2, (op, r) :: h)
  end.

(** A caller that invokes the operations one after the other and goes on
    after an exception: the state and the events it leaves behind. *)
Fixpoint run_all (self : WasbHook.t) (ops : list operation) (s : St) : St * list event :=
  match ops with
  | [] => (s, [])
  | op :: rest =>
      let '(_, s1, t1) := run sdk (invoke self op) s in
      let '(s2, t2) := run_all self rest s1 in
      (s2, t1 ++ t2)
  end.

(** Build a hook, then use it.  Without a hook there is nothing to call. *)
Definition session (wasb_conn_id : string) (ops : list operation) (s : St)
    : option WasbHook.t * St * list event :=
  match run sdk (WasbHook.__init__ wasb_conn_id) s with
  | (Returned self, s1, t1) =>
      let '(s2, t2) := run_all self ops s1 in (Some self, s2, t1 ++ t2)
  | (Raised _, s1, t1) => (None, s1, t1)
  end.

End Sessions.

(** ** What the statements assume of the SDK *)

Definition outcome_map {A B : Type} (f : A → B) (o : outcome A) : outcome B :=
  match o with
  | Returned a => Returned (f a)
  | Raised e => Raised e
  end.

(** The calls that only read the storage account. *)
Definition is_query (c : call) : bool :=
  match c with
  | Exists _ _ _ _ | ListBlobs _ _ _ _ | GetBlobToText _ _ _ _ => true
  | _ => false
  end.

Section Contract.
Context {St : Type}.
Variable sdk : ∀ c : call, St → outcome (resp c) * St.

(** Queries leave the collaborators' state as it is. *)
Definition read_only : Prop :=
  ∀ (c : call) (s : St), is_query c = true → (sdk c s).2 = s.

(** A text uploaded with the default options is what a download with the
    default options returns. *)
Definition text_round_trip : Prop :=
  ∀ (h : handle) (c b text : string) (s s1 : St),
    sdk (CreateBlobFromText h c b text ∅) s = (Returned tt, s1) →
    ∃ blob, (sdk (GetBlobToText h c b ∅) s1).1 = Returned blob ∧ content blob = VStr text.

(** A listing capped at one result is the first entry of the listing. *)
Definition honours_cap : Prop :=
  ∀ (h : handle) (c p : string) (s : St),
    (sdk (ListBlobs h c p (<["num_results" := VInt 1]> ∅)) s).1 =
    outcome_map (take 1) (sdk (ListBlobs h c p ∅) s).1.

End Contract.

(** The operations that only ask the storage account something. *)
Definition is_read (op : operation) : bool :=
  match op with
  | Check_for_blob _ _ _ | Check_for_prefix _ _ _
  | Get_blobs_list _ _ _ | Read_file _ _ _ => true
  | _ => false
  end.

(** ** Running programs: general facts *)

Section RunFacts.
Context {St : Type}.
Variable sdk : ∀ c : call, St → outcome (resp c) * St.

Lemma run_bind {A B : Type} (p : prog A) (f : A → prog B) (s : St) :
  run sdk (bind p f) s =
    match run sdk p s with
    | (Returned a, s1, t1) =>
        let '(r, s2, t2) := run sdk (f a) s1 in (r, s2, t1 ++ t2)
    | (Raised e, s1, t1) => (Raised e, s1, t1)
    end.
Proof.
  revert s. induction p as [a|e|msg k IH|c k IH]; intros s; cbn [bind run].
  - by destruct (run sdk (f a) s) as [[r s2] t2].
  - done.
  - rewrite IH. destruct (run sdk k s) as [[[a|e] s1] t1]; [|done].
    by destruct (run sdk (f a) s1) as [[r s2] t2].
  - destruct (sdk c s) as [[x|e] s1]; [|done].
    rewrite IH. destruct (run sdk (k x) s1) as [[[a|e] s2] t2]; [|done].
    by destruct (run sdk (f a) s2) as [[r s3] t3].
Qed.

Lemma run_call (c : call) (s : St) :
  run sdk (Do c Ret) s =
    match sdk c s with
    | (Returned x, s1) => (Returned x, s1, [Called c None])
    | (Raised e, s1) => (Raised e, s1, [Called c (Some e)])
    end.
Proof. cbn [run]. by destruct (sdk c s) as [[x|e] s1]. Qed.

Lemma run_keyword_free (k : string) (kw : Kwargs) (s : St) :
  run sdk (keyword_free k kw) s =
    match kw !! k with
    | Some _ =>
        (Raised (TypeError ("got multiple values for keyword argument '" +:+ k +:+ "'")),
         s, [])
    | None => (Returned tt, s, [])
    end.
Proof. unfold keyword_free. by destruct (kw !! k). Qed.

Lemma run_with_keyword (k : string) (v : pyval) (kw : Kwargs) (s : St) :
  run sdk (with_keyword k v kw) s =
    match kw !! k with
    | Some _ =>
        (Raised (TypeError ("got multiple values for keyword argument '" +:+ k +:+ "'")),
         s, [])
    | None => (Returned (<[k := v]> kw), s, [])
    end.
Proof.
  unfold with_keyword. rewrite run_bind, run_keyword_free.
  by destruct (kw !! k).
Qed.

(** The same fact at the type of each method of the client. *)
Lemma run_get_connection conn_id s :
  run sdk (BaseHook.get_connection conn_id) s =
    match sdk (GetConnection conn_id) s with
    | (Returned x, s1) => (Returned x, s1, [Called (GetConnection conn_id) None])
    | (Raised e, s1) => (Raised e, s1, [Called (GetConnection conn_id) (Some e)])
    end.
Proof. exact (run_call (GetConnection conn_id) s). Qed.

Lemma run_new kw s :
  run sdk (BlockBlobService.new kw) s =
    match sdk (NewBlockBlobService kw) s with
    | (Returned x, s1) => (Returned x, s1, [Called (NewBlockBlobService kw) None])
    | (Raised e, s1) => (Raised e, s1, [Called (NewBlockBlobService kw) (Some e)])
    end.
Proof. exact (run_call (NewBlockBlobService kw) s). Qed.

Lemma run_exists h c b kw s :
  run sdk (BlockBlobService.exists_ h c b kw) s =
    match sdk (Exists h c b kw) s with
    | (Returned x, s1) => (Returned x, s1, [Called (Exists h c b kw) None])
    | (Raised e, s1) => (Raised e, s1, [Called (Exists h c b kw) (Some e)])
    end.
Proof. exact (run_call (Exists h c b kw) s). Qed.

Lemma run_list_blobs h c p kw s :
  run sdk (BlockBlobService.list_blobs h c p kw) s =
    match sdk (ListBlobs h c p kw) s with
    | (Returned x, s1) => (Returned x, s1, [Called (ListBlobs h c p kw) None])
    | (Raised e, s1) => (Raised e, s1, [Called (ListBlobs h c p kw) (Some e)])
    end.
Proof. exact (run_call (ListBlobs h c p kw) s). Qed.

Lemma run_create_blob_from_path h c b f kw s :
  run sdk (BlockBlobService.create_blob_from_path h c b f kw) s =
    match sdk (CreateBlobFromPath h c b f kw) s with
    | (Returned x, s1) => (Returned x, s1, [Called (CreateBlobFromPath h c b f kw) None])
    | (Raised e, s1) => (Raised e, s1, [Called (CreateBlobFromPath h c b f kw) (Some e)])
    end.
Proof. exact (run_call (CreateBlobFromPath h c b f kw) s). Qed.

Lemma run_create_blob_from_text h c b x kw s :
  run sdk (BlockBlobService.create_blob_from_text h c b x kw) s =
    match sdk (CreateBlobFromText h c b x kw) s with
    | (Returned r, s1) => (Returned r, s1, [Called (CreateBlobFromText h c b x kw) None])
    | (Raised e, s1) => (Raised e, s1, [Called (CreateBlobFromText h c b x kw) (Some e)])
    end.
Proof. exact (run_call (CreateBlobFromText h c b x kw) s). Qed.

Lemma run_get_blob_to_path h c b f kw s :
  run sdk (BlockBlobService.get_blob_to_path h c b f kw) s =
    match sdk (GetBlobToPath h c b f kw) s with
    | (Returned x, s1) => (Returned x, s1, [Called (GetBlobToPath h c b f kw) None])
    | (Raised e, s1) => (Raised e, s1, [Called (GetBlobToPath h c b f kw) (Some e)])
    end.
Proof. exact (run_call (GetBlobToPath h c b f kw) s). Qed.

Lemma run_get_blob_to_text h c b kw s :
  run sdk (BlockBlobService.get_blob_to_text h c b kw) s =
    match sdk (GetBlobToText h c b kw) s with
    | (Returned x, s1) => (Returned x, s1, [Called (GetBlobToText h c b kw) None])
    | (Raised e, s1) => (Raised e, s1, [Called (GetBlobToText h c b kw) (Some e)])
    end.
Proof. exact (run_call (GetBlobToText h c b kw) s). Qed.

Lemma run_delete_blob h c b kw s :
  run sdk (BlockBlobService.delete_blob h c b kw) s =
    match sdk (DeleteBlob h c b kw) s with
    | (Returned x, s1) => (Returned x, s1, [Called (DeleteBlob h c b kw) None])
    | (Raised e, s1) => (Raised e, s1, [Called (DeleteBlob h c b kw) (Some e)])
    end.
Proof. exact (run_call (DeleteBlob h c b kw) s). Qed.

End RunFacts.

(** ** The loop of [delete_file] *)

Section Loop.
Context {St : Type}.
Variable sdk : ∀ c : call, St → outcome (resp c) * St.
Variables (self : WasbHook.t) (container_name : string) (kwargs : Kwargs).

Let del (b : string) : call :=
  DeleteBlob (WasbHook.connection self) container_name b
    (<["delete_snapshots" := VStr "include"]> kwargs).

Lemma run_delete_each_nil (s : St) :
  run sdk (WasbHook.delete_each self container_name [] kwargs) s = (Returned tt, s, []).
Proof. done. Qed.

Lemma run_delete_each_cons (b : string) (rest : list string) (s : St) :
  kwargs !! "delete_snapshots" = None →
  run sdk (WasbHook.delete_each self container_name (b :: rest) kwargs) s =
    match sdk (del b) s with
    | (Returned _, s1) =>
        let '(r, s2, t) :=
          run sdk (WasbHook.delete_each self container_name rest kwargs) s1 in
        (r, s2, deletion self container_name kwargs b None ++ t)
    | (Raised e, s1) =>
        (Raised e, s1, deletion self container_name kwargs b (Some e))
    end.
Proof.
  intros Hfree. cbn [WasbHook.delete_each].
  rewrite run_bind. cbn [log_info run].
  rewrite run_bind, run_with_keyword, Hfree. cbn beta iota.
  rewrite run_bind, run_delete_blob.
  fold (del b). destruct (sdk (del b) s) as [[[]|e] s1]; [|done].
  by destruct (run sdk _ s1) as [[r s2] t].
Qed.

Lemma run_delete_each_refused (b : string) (rest : list string) (v : pyval) (s : St) :
  kwargs !! "delete_snapshots" = Some v →
  run sdk (WasbHook.delete_each self container_name (b :: rest) kwargs) s =
    (Raised duplicate_delete_snapshots, s, [Logged ("Deleting blob: " +:+ b)]).
Proof.
  intros Hdup. cbn [WasbHook.delete_each].
  rewrite run_bind. cbn [log_info run].
  by rewrite run_bind, run_with_keyword, Hdup.
Qed.

(** A loop that returns has deleted every name, in order. *)
Lemma run_delete_each_returned (bs : list string) (s s' : St) (t : list event) :
  run sdk (WasbHook.delete_each self container_name bs kwargs) s = (Returned tt, s', t) →
  t = deletions self container_name kwargs bs.
Proof.
  revert s t. induction bs as [|b rest IH]; intros s t.
  - rewrite run_delete_each_nil. by intros [= <- <-].
  - destruct (kwargs !! "delete_snapshots") as [v|] eqn:Hkw.
    + by rewrite (run_delete_each_refused _ _ v).
    + rewrite run_delete_each_cons by done.
      destruct (sdk (del b) s) as [[[]|e] s1]; [|done].
      destruct (run sdk _ s1) as [[r s2] t2] eqn:Hrest.
      intros [= -> <- <-]. by rewrite (IH _ _ Hrest).
Qed.

(** Appending names to a loop that returns continues from where it ended. *)
Lemma run_delete_each_app (gone rest : list string) (s s1 : St) (t1 : list event) :
  run sdk (WasbHook.delete_each self container_name gone kwargs) s = (Returned tt, s1, t1) →
  run sdk (WasbHook.delete_each self container_name (gone ++ rest) kwargs) s =
    let '(r, s2, t2) :=
      run sdk (WasbHook.delete_each self container_name rest kwargs) s1 in
    (r, s2, t1 ++ t2).
Proof.
  revert s t1. induction gone as [|b gone IH]; intros s t1.
  - rewrite run_delete_each_nil. intros [= <- <-]. cbn [app].
    by destruct (run sdk _ s) as [[r s2] t2].
  - destruct (kwargs !! "delete_snapshots") as [v|] eqn:Hkw.
    + by rewrite (run_delete_each_refused _ _ v).
    + cbn [app]. rewrite !run_delete_each_cons by done.
      destruct (sdk (del b) s) as [[[]|e] s0]; [|done].
      destruct (run sdk (WasbHook.delete_each _ _ gone _) s0) as [[r0 s0'] t0] eqn:Hgone.
      intros [= -> -> <-]. rewrite (IH _ _ Hgone).
      destruct (run sdk (WasbHook.delete_each _ _ rest _) s1) as [[r s2] t2].
      reflexivity.
Qed.

End Loop.

(** ** [delete_file] against any SDK *)

Section DeleteFile.
Context {St : Type}.
Variable sdk : ∀ c : call, St → outcome (resp c) * St.
Variables (self : WasbHook.t) (container_name blob_name : string).

Lemma run_blobs_to_delete_prefix (kwargs : Kwargs) (s : St) :
  run sdk (WasbHook.blobs_to_delete self container_name blob_name true kwargs) s =
    match kwargs !! "prefix" with
    | Some _ => (Raised duplicate_prefix, s, [])
    | None =>
        let c := ListBlobs (WasbHook.connection self) container_name blob_name kwargs in
        match sdk c s with
        | (Returned l, s1) => (Returned (name <$> l), s1, [Called c None])
        | (Raised e, s1) => (Raised e, s1, [Called c (Some e)])
        end
    end.
Proof.
  unfold WasbHook.blobs_to_delete.
  rewrite run_bind, run_keyword_free.
  destruct (kwargs !! "prefix"); [done|]. cbn beta iota.
  rewrite run_bind, run_list_blobs.
  by destruct (sdk _ s) as [[l|e] s1].
Qed.

Lemma run_blobs_to_delete_single (kwargs : Kwargs) (s : St) :
  run sdk (WasbHook.blobs_to_delete self container_name blob_name false kwargs) s =
    let c := Exists (WasbHook.connection self) container_name blob_name ∅ in
    match sdk c s with
    | (Returned found, s1) =>
        (Returned (if found then [blob_name] else []), s1, [Called c None])
    | (Raised e, s1) => (Raised e, s1, [Called c (Some e)])
    end.
Proof.
  unfold WasbHook.blobs_to_delete, WasbHook.check_for_blob.
  rewrite run_bind, run_exists.
  by destruct (sdk _ s) as [[[]|e] s1].
Qed.

Lemma run_delete_file (is_prefix ignore_if_missing : bool) (kwargs : Kwargs) (s : St) :
  run sdk (WasbHook.delete_file self container_name blob_name is_prefix
             ignore_if_missing kwargs) s =
    match run sdk (WasbHook.blobs_to_delete self container_name blob_name
                     is_prefix kwargs) s with
    | (Returned bs, s0, t0) =>
        if negb ignore_if_missing && bool_decide (length bs = 0)
        then (Raised (not_found_message blob_name), s0, t0)
        else
          let '(r, s2, t2) :=
            run sdk (WasbHook.delete_each self container_name bs kwargs) s0 in
          (r, s2, t0 ++ t2)
    | (Raised e, s0, t0) => (Raised e, s0, t0)
    end.
Proof.
  unfold WasbHook.delete_file. rewrite run_bind.
  destruct (run sdk (WasbHook.blobs_to_delete _ _ _ _ _) s) as [[[bs|e] s0] t0]; [|done].
  destruct (negb ignore_if_missing && bool_decide (length bs = 0)); [|done].
  cbn [run]. by rewrite app_nil_r.
Qed.

(** The events of the query are those of one call, never a deletion or a
    log record. *)
Lemma blobs_to_delete_trace (is_prefix : bool) (kwargs : Kwargs) (s : St) :
  let t := trace sdk (WasbHook.blobs_to_delete self container_name blob_name
                        is_prefix kwargs) s in
  t = [] ∨ ∃ f, t = [Called (query self container_name blob_name is_prefix kwargs) f].
Proof.
  unfold trace, query. destruct is_prefix.
  - rewrite run_blobs_to_delete_prefix.
    destruct (kwargs !! "prefix"); [by left|]. cbn zeta.
    destruct (sdk _ s) as [[l|e] s1]; right; eauto.
  - rewrite run_blobs_to_delete_single. cbn zeta.
    destruct (sdk _ s) as [[l|e] s1]; right; eauto.
Qed.

Lemma blobs_to_delete_returned (is_prefix : bool) (kwargs : Kwargs) (s s0 : St)
    (bs : list string) (t0 : list event) :
  run sdk (WasbHook.blobs_to_delete self container_name blob_name is_prefix kwargs) s
    = (Returned bs, s0, t0) →
  t0 = [Called (query self container_name blob_name is_prefix kwargs) None] ∧
  s0 = (sdk (query self container_name blob_name is_prefix kwargs) s).2.
Proof.
  unfold query. destruct is_prefix.
  - rewrite run_blobs_to_delete_prefix.
    destruct (kwargs !! "prefix"); [done|]. cbn zeta.
    destruct (sdk _ s) as [[l|e] s1]; [|done]. by intros [= <- <- <-].
  - rewrite run_blobs_to_delete_single. cbn zeta.
    destruct (sdk _ s) as [[l|e] s1]; [|done]. by intros [= <- <- <-].
Qed.

(** C1. When there is nothing to delete, [delete_file] raises the
    [AirflowException] naming [blob_name] unless [ignore_if_missing] is
    set, in which case it returns; either way the only call issued is the
    query that found nothing (no deletion, no log record), and, for an SDK
    whose queries are read-only, the state is the one it started from. *)
Theorem delete_file_nothing_to_delete (is_prefix ignore_if_missing : bool)
    (kwargs : Kwargs) (s s0 : St) (t0 : list event) :
  read_only sdk →
  run sdk (WasbHook.blobs_to_delete self container_name blob_name is_prefix kwargs) s
    = (Returned [], s0, t0) →
  run sdk (WasbHook.delete_file self container_name blob_name is_prefix
             ignore_if_missing kwargs) s =
    (if ignore_if_missing then Returned tt
     else Raised (AirflowException ("Blob(s) not found: " +:+ blob_name)),
     s,
     [Called (query self container_name blob_name is_prefix kwargs) None]).
Proof.
  intros Hro Hq. rewrite run_delete_file, Hq.
  apply blobs_to_delete_returned in Hq as [-> ->].
  assert (is_query (query self container_name blob_name is_prefix kwargs) = true) as Hquery
    by (by destruct is_prefix).
  rewrite (Hro _ s Hquery), run_delete_each_nil.
  by destruct ignore_if_missing.
Qed.

(** C10. Without [is_prefix], [delete_file] decides what to delete by
    calling [check_for_blob] with no keyword argument, whatever [kwargs]
    is; the deletion that follows is called with [kwargs]. *)
Theorem delete_file_checks_without_kwargs (ignore_if_missing : bool)
    (kwargs : Kwargs) (s : St) :
  run sdk (WasbHook.delete_file self container_name blob_name false
             ignore_if_missing kwargs) s =
    match run sdk (WasbHook.check_for_blob self container_name blob_name ∅) s with
    | (Returned true, s1, t1) =>
        match kwargs !! "delete_snapshots" with
        | Some _ =>
            (Raised duplicate_delete_snapshots, s1,
             t1 ++ [Logged ("Deleting blob: " +:+ blob_name)])
        | None =>
            let c := DeleteBlob (WasbHook.connection self) container_name blob_name
                       (<["delete_snapshots" := VStr "include"]> kwargs) in
            match sdk c s1 with
            | (Returned _, s2) => (Returned tt, s2, t1 ++ [Logged ("Deleting blob: " +:+ blob_name); Called c None])
            | (Raised e, s2) => (Raised e, s2, t1 ++ [Logged ("Deleting blob: " +:+ blob_name); Called c (Some e)])
            end
        end
    | (Returned false, s1, t1) =>
        (if ignore_if_missing then Returned tt
         else Raised (AirflowException ("Blob(s) not found: " +:+ blob_name)),
         s1, t1)
    | (Raised e, s1, t1) => (Raised e, s1, t1)
    end.
Proof.
  rewrite run_delete_file, run_blobs_to_delete_single. cbn zeta.
  unfold WasbHook.check_for_blob. rewrite run_exists.
  destruct (sdk _ s) as [[[]|e] s1]; [| |done].
  - replace (negb ignore_if_missing && bool_decide (length [blob_name] = 0))
      with false by (by destruct ignore_if_missing).
    destruct (kwargs !! "delete_snapshots") as [v|] eqn:Hkw.
    + by rewrite (run_delete_each_refused _ _ _ _ _ _ v).
    + rewrite run_delete_each_cons by done.
      destruct (sdk _ s1) as [[[]|e] s2]; [|done].
      by rewrite run_delete_each_nil.
  - by destruct ignore_if_missing.
Qed.

(** Every event of the loop is a log record or a deletion of one of the
    names, called with [delete_snapshots='include'] added to [kwargs]. *)
Lemma delete_each_events (kwargs : Kwargs) (bs : list string) (s : St) (ev : event) :
  ev ∈ trace sdk (WasbHook.delete_each self container_name bs kwargs) s →
  (∃ b, b ∈ bs ∧ ev = Logged ("Deleting blob: " +:+ b)) ∨
  (kwargs !! "delete_snapshots" = None ∧
   ∃ b f, b ∈ bs ∧
     ev = Called (DeleteBlob (WasbHook.connection self) container_name b
                    (<["delete_snapshots" := VStr "include"]> kwargs)) f).
Proof.
  unfold trace. revert s. induction bs as [|b rest IH]; intros s.
  - rewrite run_delete_each_nil. by intros ?%elem_of_nil.
  - destruct (kwargs !! "delete_snapshots") as [v|] eqn:Hkw.
    + rewrite (run_delete_each_refused _ _ _ _ _ _ v) by done.
      intros ->%list_elem_of_singleton. left. exists b. split; [left|done].
    + rewrite run_delete_each_cons by done.
      destruct (sdk _ s) as [[[]|e] s1].
      * specialize (IH s1). destruct (run sdk _ s1) as [[r s2] t]. cbn [snd] in *.
        cbn [deletion app]. rewrite !elem_of_cons.
        intros [->|[->|Hev]].
        -- left. exists b. split; [left|done].
        -- right. split; [done|]. exists b, None. split; [left|done].
        -- destruct (IH Hev) as [(b' & Hb' & ->)|(_ & b' & f & Hb' & ->)].
           ++ left. exists b'. split; [by right|done].
           ++ right. split; [done|]. exists b', f. split; [by right|done].
      * cbn [snd]. unfold deletion at 1. rewrite !elem_of_cons.
        intros [->|[->|?%elem_of_nil]]; [|right|done].
        -- left. exists b. split; [left|done].
        -- split; [done|]. exists b, (Some e). split; [left|done].
Qed.



(** C6. The loop deletes in the order of the deletion set.  When the
    names [gone] were deleted and the deletion of the next name [x] raises
    [e], [delete_file] raises [e] itself; the events are the query, the
    deletions of [gone], each successful, then the log record and the failed
    call for [x], and nothing after: the names of [rest] are never tried and
    nothing is undone, the state being the one the failed call left. *)
Theorem delete_file_stops_at_first_failure (is_prefix ignore_if_missing : bool)
    (kwargs : Kwargs) (gone rest : list string) (x : string)
    (s s0 s1 s2 : St) (t0 t1 : list event) (e : exn) :
  kwargs !! "delete_snapshots" = None →
  run sdk (WasbHook.blobs_to_delete self container_name blob_name is_prefix kwargs) s
    = (Returned (gone ++ x :: rest), s0, t0) →
  run sdk (WasbHook.delete_each self container_name gone kwargs) s0
    = (Returned tt, s1, t1) →
  sdk (DeleteBlob (WasbHook.connection self) container_name x
         (<["delete_snapshots" := VStr "include"]> kwargs)) s1 = (Raised e, s2) →
  t1 = deletions self container_name kwargs gone ∧
  run sdk (WasbHook.delete_file self container_name blob_name is_prefix
             ignore_if_missing kwargs) s =
    (Raised e, s2,
     t0 ++ deletions self container_name kwargs gone
        ++ deletion self container_name kwargs x (Some e)).
Proof.
  intros Hkw Hq Hgone Hx.
  pose proof (run_delete_each_returned _ _ _ _ _ _ _ _ Hgone) as ->.
  split; [done|].
  rewrite run_delete_file, Hq.
  replace (negb ignore_if_missing && bool_decide (length (gone ++ x :: rest) = 0))
    with false.
  2: { rewrite bool_decide_false, andb_false_r; [done|].
       rewrite length_app. cbn [length]. lia. }
  rewrite (run_delete_each_app _ _ _ _ _ _ _ _ _ Hgone).
  by rewrite run_delete_each_cons, Hx.
Qed.

(** The events of [delete_file] are those of the query, then those of the
    loop. *)
Lemma delete_file_events (is_prefix ignore_if_missing : bool) (kwargs : Kwargs)
    (s : St) (ev : event) :
  ev ∈ trace sdk (WasbHook.delete_file self container_name blob_name is_prefix
                    ignore_if_missing kwargs) s →
  ev ∈ trace sdk (WasbHook.blobs_to_delete self container_name blob_name
                    is_prefix kwargs) s ∨
  ∃ bs s0, ev ∈ trace sdk (WasbHook.delete_each self container_name bs kwargs) s0.
Proof.
  unfold trace. rewrite run_delete_file.
  destruct (run sdk (WasbHook.blobs_to_delete _ _ _ _ _) s) as [[[bs|e] s0] t0]; [|by left].
  destruct (negb ignore_if_missing && bool_decide (length bs = 0)); [by left|].
  destruct (run sdk (WasbHook.delete_each _ _ bs _) s0) as [[r s2] t2] eqn:Hloop.
  cbn [snd]. rewrite elem_of_app. intros [?|?]; [by left|right].
  exists bs, s0. by rewrite Hloop.
Qed.

(** C7. Every [delete_blob] call [delete_file] issues carries
    [delete_snapshots='include'], put there by [delete_file] itself: the
    keyword arguments of the call are [kwargs] with that entry added, and
    [kwargs] has no [delete_snapshots] of its own (had it one, Python would
    refuse the call before the SDK sees it). *)
Theorem delete_file_always_includes_snapshots (is_prefix ignore_if_missing : bool)
    (kwargs kw : Kwargs) (s : St) (h : handle) (c b : string) (f : option exn) :
  Called (DeleteBlob h c b kw) f
    ∈ trace sdk (WasbHook.delete_file self container_name blob_name is_prefix
                   ignore_if_missing kwargs) s →
  kw !! "delete_snapshots" = Some (VStr "include") ∧
  kw = <["delete_snapshots" := VStr "include"]> kwargs ∧
  kwargs !! "delete_snapshots" = None.
Proof.
  intros [Hq|(bs & s0 & Hloop)]%delete_file_events.
  - destruct (blobs_to_delete_trace is_prefix kwargs s) as [Ht|[f' Ht]];
      cbn zeta in Ht; rewrite Ht in Hq.
    + by apply elem_of_nil in Hq.
    + apply list_elem_of_singleton in Hq. unfold query in Hq. by destruct is_prefix.
  - apply delete_each_events in Hloop as [(b' & _ & [=])|(Hkw & b' & f' & _ & [= -> -> -> ->])].
    by rewrite lookup_insert_eq.
Qed.



End DeleteFile.

(** ** One client for each hook *)

Lemma on_handle_used (h : handle) (t : list event) :
  Forall (on_handle h) t →
  Forall (eq h) (handles_used t) ∧ constructions t = [].
Proof.
  induction 1 as [|ev t Hev _ [IH1 IH2]]; [done|].
  destruct ev as [msg|c f]; [done|].
  destruct c; cbn in Hev; try discriminate; injection Hev as ->;
    (split; [by constructor|done]).
Qed.

Lemma issues_only_bind (P : call → Prop) {A B : Type} (p : prog A) (f : A → prog B) :
  issues_only P p → (∀ a, issues_only P (f a)) → issues_only P (bind p f).
Proof.
  intros Hp Hf. induction p as [a|e|msg k IH|c k IH]; cbn [bind issues_only] in *.
  - apply Hf.
  - done.
  - by apply IH.
  - destruct Hp as [Hc Hk]. split; [done|]. intros x. by apply IH.
Qed.

Lemma issues_only_keyword_free (P : call → Prop) (k : string) (kw : Kwargs) :
  issues_only P (keyword_free k kw).
Proof. unfold keyword_free. by destruct (kw !! k). Qed.

Lemma issues_only_with_keyword (P : call → Prop) (k : string) (v : pyval) (kw : Kwargs) :
  issues_only P (with_keyword k v kw).
Proof.
  unfold with_keyword. apply issues_only_bind; [apply issues_only_keyword_free|done].
Qed.

Section Client.
Context {St : Type}.
Variable sdk : ∀ c : call, St → outcome (resp c) * St.

Lemma issues_only_trace (P : call → Prop) {A : Type} (p : prog A) (s : St) :
  issues_only P p →
  Forall (λ ev, match ev with Called c _ => P c | Logged _ => True end)
    (trace sdk p s).
Proof.
  unfold trace. revert s.
  induction p as [a|e|msg k IH|c k IH]; intros s Hp; cbn [run issues_only] in *.
  - constructor.
  - constructor.
  - specialize (IH s Hp). destruct (run sdk k s) as [[r s1] t].
    by constructor.
  - destruct Hp as [Hc Hk]. destruct (sdk c s) as [[x|e] s1].
    + specialize (IH x s1 (Hk x)). destruct (run sdk (k x) s1) as [[r s2] t].
      by constructor.
    + by repeat constructor.
Qed.

End Client.

Section HookCalls.
Variable self : WasbHook.t.

Let mine (c : call) : Prop := handle_of c = Some (WasbHook.connection self).

Lemma delete_each_issues (container_name : string) (bs : list string) (kwargs : Kwargs) :
  issues_only mine (WasbHook.delete_each self container_name bs kwargs).
Proof.
  induction bs as [|b rest IH]; [done|]. cbn [WasbHook.delete_each].
  apply issues_only_bind; [done|]. intros _.
  apply issues_only_bind; [apply issues_only_with_keyword|]. intros kw.
  apply issues_only_bind; [by split|]. intros _. apply IH.
Qed.

Lemma delete_file_issues (container_name blob_name : string)
    (is_prefix ignore_if_missing : bool) (kwargs : Kwargs) :
  issues_only mine
    (WasbHook.delete_file self container_name blob_name is_prefix ignore_if_missing kwargs).
Proof.
  apply issues_only_bind.
  - unfold WasbHook.blobs_to_delete. destruct is_prefix.
    + apply issues_only_bind; [apply issues_only_keyword_free|]. intros _.
      apply issues_only_bind; [by split|done].
    + apply issues_only_bind; [by split|]. by intros [].
  - intros bs. destruct (negb ignore_if_missing && bool_decide (length bs = 0)); [done|].
    apply delete_each_issues.
Qed.

(** No operation looks a connection up or builds a client: every call it
    issues is a call on [self.connection]. *)
Lemma invoke_issues (op : operation) : issues_only mine (invoke self op).
Proof.
  destruct op as [c b kw|c p kw|c p kw|f c b kw|d c b kw|f c b kw|c b kw|c b ip ign kw];
    cbn [invoke]; (apply issues_only_bind; [|done]).
  - by split.
  - apply issues_only_bind; [apply issues_only_with_keyword|]. intros kw'.
    apply issues_only_bind; [by split|done].
  - by split.
  - by split.
  - by split.
  - by split.
  - apply issues_only_bind; [by split|done].
  - apply delete_file_issues.
Qed.

End HookCalls.

Section Session.
Context {St : Type}.
Variable sdk : ∀ c : call, St → outcome (resp c) * St.

Lemma run_all_on_handle (self : WasbHook.t) (ops : list operation) (s : St) :
  Forall (on_handle (WasbHook.connection self)) (run_all sdk self ops s).2.
Proof.
  revert s. induction ops as [|op rest IH]; intros s; cbn [run_all]; [constructor|].
  pose proof (issues_only_trace sdk _ _ s (invoke_issues self op)) as Hop.
  unfold trace in Hop. destruct (run sdk (invoke self op) s) as [[r s1] t1].
  specialize (IH s1). destruct (run_all sdk self rest s1) as [s2 t2].
  cbn [snd] in *. apply Forall_app. split; [|done].
  eapply Forall_impl; [exact Hop|]. by intros [msg|c f].
Qed.

(** What [__init__] does: one look-up, then at most one construction, whose
    answer becomes [self.connection]. *)
Lemma run_init (wasb_conn_id : string) (s : St) :
  match run sdk (WasbHook.__init__ wasb_conn_id) s with
  | (Returned self, s1, t) =>
      ∃ kw s0,
        t = [Called (GetConnection wasb_conn_id) None;
             Called (NewBlockBlobService kw) None] ∧
        sdk (NewBlockBlobService kw) s0 = (Returned (WasbHook.connection self), s1) ∧
        WasbHook.conn_id self = wasb_conn_id
  | (Raised e, s1, t) =>
      (∃ e', t = [Called (GetConnection wasb_conn_id) e']) ∨
      (∃ kw, t = [Called (GetConnection wasb_conn_id) None;
                  Called (NewBlockBlobService kw) (Some e)])
  end.
Proof.
  unfold WasbHook.__init__, WasbHook.get_conn.
  rewrite !run_bind, run_get_connection.
  destruct (sdk (GetConnection wasb_conn_id) s) as [[conn|e] s1]; [|left; eauto].
  rewrite run_bind, run_with_keyword.
  destruct (extra_dejson conn !! "account_key"); [left; eauto|]. cbn beta iota.
  rewrite run_bind, run_with_keyword.
  destruct (<["account_key" := password conn]> (extra_dejson conn) !! "account_name");
    [left; eauto|]. cbn beta iota.
  rewrite run_new.
  destruct (sdk (NewBlockBlobService _) s1) as [[h|e] s2] eqn:Hnew; cbn [run app].
  - eexists _, s1. by rewrite Hnew.
  - right. eauto.
Qed.

(** C9. A hook that exists has exactly one client: [__init__] built it,
    in the one construction of the whole session, and every call of every
    operation is made on it.  When the look-up or the construction raises
    there is no hook, hence no call on any client. *)
Theorem hook_has_one_client (wasb_conn_id : string) (ops : list operation) (s : St) :
  match session sdk wasb_conn_id ops s with
  | (Some self, _, t) =>
      ∃ kw s0 s1,
        constructions t = [kw] ∧
        sdk (NewBlockBlobService kw) s0 = (Returned (WasbHook.connection self), s1) ∧
        Forall (eq (WasbHook.connection self)) (handles_used t)
  | (None, _, t) =>
      (∃ e, result sdk (WasbHook.__init__ wasb_conn_id) s = Raised e) ∧
      handles_used t = [] ∧
      (length (constructions t) ≤ 1)%nat
  end.
Proof.
  unfold session, result. pose proof (run_init wasb_conn_id s) as Hinit.
  destruct (run sdk (WasbHook.__init__ wasb_conn_id) s) as [[[self|e] s1] t1].
  - destruct Hinit as (kw & s0 & -> & Hnew & _).
    pose proof (run_all_on_handle self ops s1) as Hops.
    destruct (run_all sdk self ops s1) as [s2 t2]. cbn [snd] in Hops.
    apply on_handle_used in Hops as [Hused Hbuilt].
    exists kw, s0, s1. cbn [app constructions handles_used omap list_omap handle_of].
    fold (constructions t2). fold (handles_used t2). by rewrite Hbuilt.
  - split; [by exists e|].
    destruct Hinit as [[e' ->]|[kw ->]]; cbn; split; (done || lia).
Qed.

End Session.

(** ** Uploads, downloads and listings against an SDK that keeps its contract *)

Section Storage.
Context {St : Type}.
Variable sdk : ∀ c : call, St → outcome (resp c) * St.
Variable self : WasbHook.t.

(** C3. With an SDK that returns the text it was given, [load_string] of
    [string_data] to a blob followed by [read_file] of that blob returns
    [string_data], the empty string included. *)
Theorem load_string_then_read_file (string_data container_name blob_name : string)
    (s : St) :
  text_round_trip sdk →
  result sdk (WasbHook.load_string self string_data container_name blob_name ∅) s
    = Returned tt →
  result sdk
    (WasbHook.load_string self string_data container_name blob_name ∅ >>
     WasbHook.read_file self container_name blob_name ∅) s
    = Returned (VStr string_data).
Proof.
  intros Hsdk. unfold result, WasbHook.load_string, WasbHook.read_file.
  rewrite run_bind, run_create_blob_from_text.
  destruct (sdk (CreateBlobFromText _ _ _ _ _) s) as [[[]|e] s1] eqn:Hup; [|done].
  intros _. destruct (Hsdk _ _ _ _ _ _ Hup) as (blob & Hget & Hcontent).
  rewrite run_bind, run_get_blob_to_text.
  destruct (sdk (GetBlobToText _ _ _ _) s1) as [[blob'|e] s2]; cbn [fst] in Hget; [|done].
  injection Hget as ->. cbn [run fst]. by rewrite Hcontent.
Qed.

(** C4. With an SDK whose capped listing is the head of the full listing,
    [check_for_prefix] returns [True] exactly when [get_blobs_list] on the
    same container and prefix returns a listing that is not empty; it
    raises what [get_blobs_list] raises. *)
Theorem check_for_prefix_iff_listing_nonempty (container_name prefix : string) (s : St) :
  honours_cap sdk →
  result sdk (WasbHook.check_for_prefix self container_name prefix ∅) s =
    outcome_map (λ l, bool_decide (l ≠ []))
      (result sdk (WasbHook.get_blobs_list self container_name prefix ∅) s) ∧
  (result sdk (WasbHook.check_for_prefix self container_name prefix ∅) s = Returned true ↔
   ∃ l, result sdk (WasbHook.get_blobs_list self container_name prefix ∅) s = Returned l ∧
        l ≠ []).
Proof.
  intros Hcap.
  assert (result sdk (WasbHook.check_for_prefix self container_name prefix ∅) s =
          outcome_map (λ l, bool_decide (l ≠ []))
            (result sdk (WasbHook.get_blobs_list self container_name prefix ∅) s)) as Heq.
  { unfold result, WasbHook.check_for_prefix, WasbHook.get_blobs_list.
    rewrite run_bind, run_with_keyword, lookup_empty. cbn beta iota.
    rewrite run_bind, !run_list_blobs.
    specialize (Hcap (WasbHook.connection self) container_name prefix s).
    destruct (sdk (ListBlobs _ _ _ (<[_ := _]> ∅)) s) as [[l1|e1] s1];
      destruct (sdk (ListBlobs _ _ _ ∅) s) as [[l|e] s2];
      cbn [fst outcome_map] in Hcap; try done.
    - injection Hcap as ->. cbn [run fst outcome_map]. f_equal.
      destruct l; [done|]. cbn [take length].
      rewrite bool_decide_true by lia. by rewrite bool_decide_true.
    - by injection Hcap as ->. }
  split; [done|]. rewrite Heq.
  destruct (result sdk (WasbHook.get_blobs_list self container_name prefix ∅) s) as [l|e];
    cbn [outcome_map].
  - split.
    + intros [= Hl%bool_decide_eq_true]. by exists l.
    + intros (l' & [= <-] & Hl). by rewrite bool_decide_true.
  - split; [done|]. by intros (l' & [=] & _).
Qed.

End Storage.

(** ** The reference client keeps the contract *)

Module ReferenceFacts.
Import Reference.

Lemma accepts_empty (known : list string) : accepts known ∅ = true.
Proof. unfold accepts, unexpected. by rewrite map_to_list_empty. Qed.

Lemma elem_of_matching (c p n : string) (m : gmap (string * string) string) :
  n ∈ matching c p m ↔ is_Some (m !! (c, n)) ∧ String.prefix p n = true.
Proof.
  unfold matching. rewrite merge_sort_Permutation, list_elem_of_fmap. split.
  - intros ([c' n'] & -> & [[Hc Hp] Hin]%list_elem_of_filter). cbn in *. subst c'.
    split; [|done].
    apply list_elem_of_fmap in Hin as ([k v] & -> & Hkv%elem_of_map_to_list).
    by exists v.
  - intros [[v Hv] Hp]. exists (c, n). split; [done|].
    apply list_elem_of_filter. split; [done|].
    apply list_elem_of_fmap. exists ((c, n), v). split; [done|].
    by apply elem_of_map_to_list.
Qed.

Lemma NoDup_matching (c p : string) (m : gmap (string * string) string) :
  NoDup (matching c p m).
Proof.
  unfold matching. rewrite merge_sort_Permutation.
  apply NoDup_fmap_2_strong.
  - intros [c1 n1] [c2 n2] [[H1 _] _]%list_elem_of_filter [[H2 _] _]%list_elem_of_filter.
    cbn in *. by intros; subst.
  - apply NoDup_filter, NoDup_fst_map_to_list.
Qed.

Lemma sdk_read_only : read_only sdk.
Proof.
  intros c w Hc. destruct c; try discriminate; cbn [sdk].
  - by destruct (accepts _ _).
  - destruct (accepts _ _); [|done]. by destruct (capped _ _).
  - destruct (accepts _ _); [|done]. by destruct (blobs w !! _).
Qed.

Lemma sdk_text_round_trip : text_round_trip sdk.
Proof.
  intros h c b text w w1. cbn [sdk]. rewrite !accepts_empty. intros [= <-].
  eexists. cbn [blobs set_blobs]. rewrite lookup_insert_eq. by split.
Qed.

Lemma sdk_honours_cap : honours_cap sdk.
Proof.
  intros h c p w. cbn [sdk]. rewrite accepts_empty.
  replace (accepts ["num_results"; "timeout"] (<["num_results" := VInt 1]> ∅))
    with true by (by vm_compute).
  unfold capped. rewrite lookup_insert_eq, lookup_empty.
  rewrite decide_True by lia. cbn [fst outcome_map].
  f_equal. by rewrite fmap_take.
Qed.

(** *** Deleting by prefix *)

Lemma sdk_delete_blob_present (h : handle) (c b data : string) (w : World) :
  blobs w !! (c, b) = Some data →
  sdk (DeleteBlob h c b (<["delete_snapshots" := VStr "include"]> ∅)) w =
    (Returned tt, set_blobs (delete (c, b)) w).
Proof.
  intros Hb. cbn [sdk].
  replace (accepts _ _) with true by (by vm_compute).
  by rewrite Hb.
Qed.

Lemma lookup_foldl_delete (c : string) (l : list string)
    (m : gmap (string * string) string) (k : string * string) :
  foldl (λ m n, delete (c, n) m) m l !! k =
  if decide (k.1 = c ∧ k.2 ∈ l) then None else m !! k.
Proof.
  revert m. induction l as [|n l IH]; intros m; cbn [foldl].
  - rewrite decide_False; [done|]. by intros [_ ?%elem_of_nil].
  - rewrite IH. destruct k as [c' n']. cbn [fst snd].
    destruct (decide (c' = c ∧ n' ∈ l)) as [[-> Hin]|Hnot].
    + rewrite decide_True; [done|]. split; [done|by right].
    + destruct (decide ((c', n') = (c, n))) as [[= -> ->]|Hne].
      * rewrite lookup_delete_eq, decide_True; [done|]. split; [done|left].
      * rewrite lookup_delete_ne by done.
        rewrite decide_False; [done|].
        intros [-> [->|?]%elem_of_cons]; [done|]. by apply Hnot.
Qed.

(** The loop on names that are all there, each once: every deletion
    succeeds. *)
Lemma run_delete_each_present (self : WasbHook.t) (c : string) (l : list string)
    (w : World) :
  NoDup l →
  (∀ n, n ∈ l → is_Some (blobs w !! (c, n))) →
  run sdk (WasbHook.delete_each self c l ∅) w =
    (Returned tt, set_blobs (λ m, foldl (λ m n, delete (c, n) m) m l) w,
     deletions self c ∅ l).
Proof.
  revert w. induction l as [|b rest IH]; intros w Hnodup Hin.
  - rewrite run_delete_each_nil. by destruct w.
  - apply NoDup_cons in Hnodup as [Hb Hrest].
    destruct (Hin b) as [data Hdata]; [left|].
    rewrite run_delete_each_cons by apply lookup_empty.
    rewrite (sdk_delete_blob_present _ _ _ data) by done.
    rewrite IH; [done|done|].
    intros n Hn. cbn [set_blobs blobs].
    rewrite lookup_delete_ne; [apply Hin; by right|].
    intros [= ->]. done.
Qed.

Lemma sdk_list_blobs_all (h : handle) (c p : string) (w : World) :
  sdk (ListBlobs h c p ∅) w = (Returned (listed <$> matching c p (blobs w)), w).
Proof. cbn [sdk]. rewrite accepts_empty. unfold capped. by rewrite lookup_empty. Qed.

Lemma name_listed (l : list string) : name <$> (listed <$> l) = l.
Proof. rewrite <-list_fmap_compose. apply list_fmap_id. Qed.

(** What is left of a container once the names matching a prefix are gone. *)
Lemma foldl_delete_matching (c p : string) (m : gmap (string * string) string) :
  foldl (λ m n, delete (c, n) m) m (matching c p m) =
  filter (λ kv, ¬ (kv.1.1 = c ∧ String.prefix p kv.1.2 = true)) m.
Proof.
  apply map_eq. intros [c' n]. rewrite lookup_foldl_delete. cbn [fst snd].
  destruct (decide (c' = c ∧ n ∈ matching c p m)) as [[-> Hin]|Hnot].
  - symmetry. apply map_lookup_filter_None. right. intros v _ Hgo. apply Hgo.
    apply elem_of_matching in Hin as [_ Hp]. done.
  - apply option_eq. intros v. rewrite map_lookup_filter_Some. cbn [fst snd].
    split; [|by intros [? _]].
    intros Hv. split; [done|]. intros [-> Hp]. apply Hnot. split; [done|].
    apply elem_of_matching. split; [by exists v|done].
Qed.

Lemma matching_filter_nil (c p : string) (m : gmap (string * string) string) :
  matching c p (filter (λ kv, ¬ (kv.1.1 = c ∧ String.prefix p kv.1.2 = true)) m) = [].
Proof.
  apply elem_of_nil_inv. intros n [[v Hv] Hp]%elem_of_matching.
  apply map_lookup_filter_Some in Hv as [_ Hgo]. by apply Hgo.
Qed.

(** C2. Against the reference client, [delete_file] with [is_prefix]
    leaves the account without the blobs of the container whose name starts
    with the prefix and with every other blob as it was; a
    [check_for_prefix] on the same container and prefix then returns
    [False].  It returns unless nothing matched and [ignore_if_missing] is
    not set. *)
Theorem delete_file_prefix_deletes_matching (self : WasbHook.t)
    (container_name prefix : string) (ignore_if_missing : bool) (w : World) :
  let gone kv := kv.1.1 = container_name ∧ String.prefix prefix kv.1.2 = true in
  let '(r, w', _) :=
    run sdk (WasbHook.delete_file self container_name prefix true ignore_if_missing ∅) w in
  w' = set_blobs (filter (λ kv : string * string * string, ¬ gone kv)) w ∧
  result sdk (WasbHook.check_for_prefix self container_name prefix ∅) w' = Returned false ∧
  r = if negb ignore_if_missing
         && bool_decide (length (matching container_name prefix (blobs w)) = 0)
      then Raised (AirflowException ("Blob(s) not found: " +:+ prefix))
      else Returned tt.
Proof.
  cbn zeta.
  assert (∀ w', w' = set_blobs (filter (λ kv : string * string * string,
                      ¬ (kv.1.1 = container_name ∧ String.prefix prefix kv.1.2 = true))) w →
          result sdk (WasbHook.check_for_prefix self container_name prefix ∅) w'
            = Returned false) as Hcheck.
  { intros w' ->. unfold result, WasbHook.check_for_prefix.
    rewrite run_bind, run_with_keyword, lookup_empty. cbn beta iota.
    rewrite run_bind, run_list_blobs.
    pose proof (sdk_honours_cap (WasbHook.connection self) container_name prefix
                  (set_blobs (filter (λ kv : string * string * string,
                      ¬ (kv.1.1 = container_name ∧ String.prefix prefix kv.1.2 = true))) w))
      as Hcap.
    rewrite sdk_list_blobs_all in Hcap. cbn [fst outcome_map set_blobs blobs] in Hcap.
    rewrite matching_filter_nil in Hcap.
    destruct (sdk (ListBlobs _ _ _ (<[_ := _]> ∅)) _) as [[l|e] w2];
      cbn [fst] in Hcap; [|done].
    by injection Hcap as ->. }
  rewrite run_delete_file, run_blobs_to_delete_prefix, lookup_empty. cbn zeta.
  rewrite sdk_list_blobs_all, name_listed.
  destruct (negb ignore_if_missing
            && bool_decide (length (matching container_name prefix (blobs w)) = 0))
    eqn:Hempty.
  - apply andb_true_iff in Hempty as [_ Hnil%bool_decide_eq_true].
    apply nil_length_inv in Hnil.
    pose proof (foldl_delete_matching container_name prefix (blobs w)) as Hsame.
    rewrite Hnil in Hsame. cbn [foldl] in Hsame.
    assert (w = set_blobs (filter (λ kv : string * string * string,
                ¬ (kv.1.1 = container_name ∧ String.prefix prefix kv.1.2 = true))) w) as Hw.
    { unfold set_blobs. rewrite <-Hsame. by destruct w. }
    split; [done|]. split; [by apply Hcheck|done].
  - rewrite run_delete_each_present.
    + assert (set_blobs (λ m, foldl (λ m n, delete (container_name, n) m) m
                               (matching container_name prefix (blobs w))) w =
              set_blobs (filter (λ kv : string * string * string,
                ¬ (kv.1.1 = container_name ∧ String.prefix prefix kv.1.2 = true))) w) as Hw.
      { unfold set_blobs. by rewrite foldl_delete_matching. }
      split; [done|]. split; [by apply Hcheck|done].
    + apply NoDup_matching.
    + by intros n [? _]%elem_of_matching.
Qed.

(** *** Which blobs exist *)

Lemma has_blob_insert (c b c' b' data : string) (m : gmap (string * string) string) :
  bool_decide (is_Some (<[(c', b') := data]> m !! (c, b))) =
  if bool_decide (c' = c ∧ b' = b) then true else bool_decide (is_Some (m !! (c, b))).
Proof.
  destruct (decide (c' = c ∧ b' = b)) as [[-> ->]|Hk].
  - rewrite lookup_insert_eq, (bool_decide_true (_ ∧ _)) by done.
    by apply bool_decide_true.
  - rewrite (bool_decide_false (_ ∧ _)) by done.
    rewrite lookup_insert_ne; [done|]. intros [= -> ->]. by apply Hk.
Qed.

Lemma has_blob_delete (c b c' b' : string) (m : gmap (string * string) string) :
  bool_decide (is_Some (delete (c', b') m !! (c, b))) =
  if bool_decide (c' = c ∧ b' = b) then false else bool_decide (is_Some (m !! (c, b))).
Proof.
  destruct (decide (c' = c ∧ b' = b)) as [[-> ->]|Hk].
  - rewrite lookup_delete_eq, (bool_decide_true (_ ∧ _)) by done.
    apply bool_decide_false. by intros [? ?].
  - rewrite (bool_decide_false (_ ∧ _)) by done.
    rewrite lookup_delete_ne; [done|]. intros [= -> ->]. by apply Hk.
Qed.

(** A client that accepts the keyword arguments of a call was given none
    it does not know. *)
Lemma accepts_known (known : list string) (kw : Kwargs) (k : string) :
  accepts known kw = true → k ∉ known → kw !! k = None.
Proof.
  unfold accepts, unexpected. intros Hnone%bool_decide_eq_true Hk.
  apply eq_None_not_Some. intros [v Hv].
  assert (k ∈ filter (λ k, k ∉ known) (map_to_list kw).*1) as Hin.
  { apply list_elem_of_filter. split; [done|].
    apply list_elem_of_fmap. exists (k, v). split; [done|].
    by apply elem_of_map_to_list. }
  rewrite Hnone in Hin. by apply elem_of_nil in Hin.
Qed.

Lemma capped_uncapped (kw : Kwargs) (l : list string) :
  kw !! "num_results" = None → capped kw l = Returned l.
Proof. unfold capped. by intros ->. Qed.

Lemma capped_nil (kw : Kwargs) (l : list string) :
  capped kw l = Returned [] → l = [].
Proof.
  unfold capped. destruct (kw !! "num_results") as [[| |n|]|]; try done.
  - by intros [= ->].
  - destruct (decide (0 < n)%Z) as [Hn|]; [|done]. intros [= Htake].
    destruct l as [|x l]; [done|].
    destruct (Z.to_nat n) as [|k] eqn:Hk; [lia|done].
  - by intros [= ->].
Qed.

(** The loop with keyword arguments the client accepts, on names that are
    all there, each once: every deletion succeeds. *)
Lemma run_delete_each_accepted (self : WasbHook.t) (c : string) (l : list string)
    (kw : Kwargs) (w : World) :
  kw !! "delete_snapshots" = None →
  accepts ["delete_snapshots"; "timeout"] (<["delete_snapshots" := VStr "include"]> kw)
    = true →
  NoDup l →
  (∀ n, n ∈ l → is_Some (blobs w !! (c, n))) →
  run sdk (WasbHook.delete_each self c l kw) w =
    (Returned tt, set_blobs (λ m, foldl (λ m n, delete (c, n) m) m l) w,
     deletions self c kw l).
Proof.
  intros Hkw Hacc. revert w. induction l as [|b rest IH]; intros w Hnodup Hin.
  - rewrite run_delete_each_nil. by destruct w.
  - apply NoDup_cons in Hnodup as [Hb Hrest].
    destruct (Hin b) as [data Hdata]; [left|].
    rewrite run_delete_each_cons by done. cbn [sdk]. rewrite Hacc, Hdata.
    rewrite IH; [done|done|].
    intros n Hn. cbn [set_blobs blobs].
    rewrite lookup_delete_ne; [apply Hin; by right|].
    intros [= ->]. done.
Qed.

(** Against the reference client [delete_file] is all or nothing: when it
    raises, the account is as it was; when it returns, every blob it was
    aimed at is gone and no other. *)
Lemma run_delete_file_all_or_nothing (self : WasbHook.t) (c p : string)
    (is_prefix ignore_if_missing : bool) (kw : Kwargs) (w : World) :
  match run sdk (WasbHook.delete_file self c p is_prefix ignore_if_missing kw) w with
  | (Raised _, w', _) => w' = w
  | (Returned _, w', _) =>
      w' = set_blobs (λ m, foldl (λ m n, delete (c, n) m) m
                            (if is_prefix then matching c p (blobs w)
                             else if has_blob w c p then [p] else [])) w
  end.
Proof.
  assert (∀ bs, accepts ["delete_snapshots"; "timeout"]
                  (<["delete_snapshots" := VStr "include"]> kw) = false →
          bs ≠ [] →
          ∃ e t, run sdk (WasbHook.delete_each self c bs kw) w = (Raised e, w, t))
    as Hrefused.
  { intros [|x rest] Hacc Hbs; [done|].
    destruct (kw !! "delete_snapshots") as [v|] eqn:Hds.
    - rewrite (run_delete_each_refused _ _ _ _ _ _ v) by done. by eexists _, _.
    - rewrite run_delete_each_cons by done. cbn [sdk]. rewrite Hacc. by eexists _, _. }
  assert (∀ bs, kw !! "delete_snapshots" ≠ None → bs ≠ [] →
          ∃ e t, run sdk (WasbHook.delete_each self c bs kw) w = (Raised e, w, t))
    as Hdup.
  { intros [|x rest] Hds Hbs; [done|].
    destruct (kw !! "delete_snapshots") as [v|] eqn:Hv; [|done].
    rewrite (run_delete_each_refused _ _ _ _ _ _ v) by done. by eexists _, _. }
  rewrite run_delete_file. destruct is_prefix.
  - rewrite run_blobs_to_delete_prefix.
    destruct (kw !! "prefix"); [done|]. cbn zeta. cbn [sdk].
    destruct (accepts ["num_results"; "timeout"] kw) eqn:Hlist; [|done].
    destruct (capped kw (matching c p (blobs w))) as [l|e] eqn:Hcap; [|done].
    rewrite name_listed.
    destruct (negb ignore_if_missing && bool_decide (length l = 0)); [done|].
    destruct (decide (l = [])) as [->|Hl].
    { rewrite run_delete_each_nil. apply capped_nil in Hcap as ->. by destruct w. }
    destruct (kw !! "delete_snapshots") as [v|] eqn:Hds.
    { destruct (Hdup l) as (e & t & Hrun); [done|done|]. by rewrite Hrun. }
    destruct (accepts ["delete_snapshots"; "timeout"]
                (<["delete_snapshots" := VStr "include"]> kw)) eqn:Hdel.
    + assert (kw !! "num_results" = None) as Hcapless.
      { rewrite <-(lookup_insert_ne kw "delete_snapshots" "num_results"
                     (VStr "include")) by done.
        apply (accepts_known _ _ _ Hdel).
        rewrite !elem_of_cons. intros [?|[?|?%elem_of_nil]]; done. }
      rewrite capped_uncapped in Hcap by done. injection Hcap as <-.
      rewrite run_delete_each_accepted; [done|done|done|apply NoDup_matching|].
      by intros n [? _]%elem_of_matching.
    + destruct (Hrefused l) as (e & t & Hrun); [done|done|]. by rewrite Hrun.
  - rewrite run_blobs_to_delete_single. cbn zeta. cbn [sdk]. rewrite accepts_empty.
    fold (has_blob w c p). destruct (has_blob w c p) eqn:Hhas.
    + replace (negb ignore_if_missing && bool_decide (length [p] = 0)) with false
        by (by destruct ignore_if_missing).
      destruct (kw !! "delete_snapshots") as [v|] eqn:Hds.
      { destruct (Hdup [p]) as (e & t & Hrun); [done|done|]. by rewrite Hrun. }
      destruct (accepts ["delete_snapshots"; "timeout"]
                  (<["delete_snapshots" := VStr "include"]> kw)) eqn:Hdel.
      * rewrite run_delete_each_accepted; [done|done|done|apply NoDup_singleton|].
        intros n ->%list_elem_of_singleton.
        by apply bool_decide_eq_true in Hhas.
      * destruct (Hrefused [p]) as (e & t & Hrun); [done|done|]. by rewrite Hrun.
    + destruct (negb ignore_if_missing && bool_decide (length (@nil string) = 0)); [done|].
      rewrite run_delete_each_nil. by destruct w.
Qed.

(** What one operation does to the presence of a blob, read off the
    operation and the way it ended. *)
Lemma invoke_has_blob (self : WasbHook.t) (op : operation) (c b : string) (w : World) :
  let '(r, w', _) := run sdk (invoke self op) w in
  has_blob w' c b =
    if uploads c b (op, r) then true
    else if deletes c b (op, r) then false
    else has_blob w c b.
Proof.
  destruct op as [c' b' kw|c' p kw|c' p kw|f c' b' kw|d c' b' kw|f c' b' kw|c' b' kw
                 |c' p ip ign kw]; cbn [invoke]; rewrite run_bind.
  - unfold WasbHook.check_for_blob. rewrite run_exists. cbn [sdk].
    by destruct (accepts _ _).
  - unfold WasbHook.check_for_prefix. rewrite run_bind, run_with_keyword.
    destruct (kw !! "num_results"); [done|]. cbn beta iota.
    rewrite run_bind, run_list_blobs. cbn [sdk].
    destruct (accepts _ _); [|done]. by destruct (capped _ _).
  - unfold WasbHook.get_blobs_list. rewrite run_list_blobs. cbn [sdk].
    destruct (accepts _ _); [|done]. by destruct (capped _ _).
  - unfold WasbHook.load_file. rewrite run_create_blob_from_path. cbn [sdk].
    destruct (accepts _ _); [|done]. destruct (files w !! f); [|done].
    cbn [run uploads]. apply has_blob_insert.
  - unfold WasbHook.load_string. rewrite run_create_blob_from_text. cbn [sdk].
    destruct (accepts _ _); [|done].
    cbn [run uploads]. apply has_blob_insert.
  - unfold WasbHook.get_file. rewrite run_get_blob_to_path. cbn [sdk].
    destruct (accepts _ _); [|done]. by destruct (blobs w !! (c', b')).
  - unfold WasbHook.read_file. rewrite run_bind, run_get_blob_to_text. cbn [sdk].
    destruct (accepts _ _); [|done]. by destruct (blobs w !! (c', b')).
  - pose proof (run_delete_file_all_or_nothing self c' p ip ign kw w) as Hdel.
    destruct (run sdk (WasbHook.delete_file self c' p ip ign kw) w) as [[[[]|e] w'] t];
      [|by subst].
    cbn [run uploads deletes]. subst w'. unfold has_blob at 1. cbn [set_blobs blobs].
    rewrite lookup_foldl_delete. cbn [fst snd].
    destruct (decide (c' = c)) as [->|Hc].
    2: { rewrite decide_False by (by intros [? _]).
         by rewrite (bool_decide_false (c' = c)). }
    rewrite (bool_decide_true (c = c)) by done. cbn [andb].
    destruct ip.
    + destruct (decide (c = c ∧ b ∈ matching c p (blobs w))) as [[_ Hin]|Hnot].
      * apply elem_of_matching in Hin as [_ ->].
        apply bool_decide_false. by intros [? ?].
      * destruct (String.prefix p b) eqn:Hp; [|done].
        apply bool_decide_false.
        intros Hsome. apply Hnot. split; [done|]. by apply elem_of_matching.
    + destruct (decide (p = b)) as [->|Hpb].
      * rewrite (bool_decide_true (b = b)) by done.
        destruct (has_blob w c b) eqn:Hhas.
        -- rewrite decide_True by (split; [done|left]).
           apply bool_decide_false. by intros [? ?].
        -- rewrite decide_False by (by intros [_ ?%elem_of_nil]). apply Hhas.
      * rewrite (bool_decide_false (p = b)) by done.
        rewrite decide_False; [done|].
        intros [_ Hin]. destruct (has_blob w c p).
        -- by apply list_elem_of_singleton in Hin.
        -- by apply elem_of_nil in Hin.
Qed.

Lemma run_each_kept (self : WasbHook.t) (ops : list operation) (c b : string) (w : World) :
  has_blob (run_each sdk self ops w).1 c b =
  kept c b (run_each sdk self ops w).2 (has_blob w c b).
Proof.
  revert w. induction ops as [|op rest IH]; intros w; cbn [run_each]; [done|].
  pose proof (invoke_has_blob self op c b w) as Hop.
  destruct (run sdk (invoke self op) w) as [[r w1] t1].
  specialize (IH w1). destruct (run_each sdk self rest w1) as [w2 h].
  cbn [fst snd kept] in *. by rewrite IH, Hop.
Qed.

(** [kept] in words: the blob is there when it was uploaded and not deleted
    since, or was there before and never deleted. *)
Lemma kept_true (c b : string) (h : list step) (before : bool) :
  kept c b h before = true ↔
  (before = true ∧ Forall (λ st, deletes c b st = false) h) ∨
  (∃ h1 up h2, h = h1 ++ up :: h2 ∧ uploads c b up = true ∧
               Forall (λ st, deletes c b st = false) h2).
Proof.
  revert before. induction h as [|st h IH]; intros before; cbn [kept].
  - split.
    + intros ->. by left.
    + intros [[-> _]|(h1 & up & h2 & Hh & _)]; [done|]. by destruct h1.
  - rewrite IH. split.
    + intros [[Hnow Hh]|(h1 & up & h2 & -> & Hup & Hh2)].
      * destruct (uploads c b st) eqn:Hup.
        -- right. by exists [], st, h.
        -- destruct (deletes c b st) eqn:Hdel; [done|].
           left. split; [done|]. by constructor.
      * right. by exists (st :: h1), up, h2.
    + intros [[-> Hh]|(h1 & up & h2 & Heq & Hup & Hh2)].
      * apply Forall_cons in Hh as [Hst Hh]. left. rewrite Hst. split; [|done].
        by destruct (uploads c b st).
      * destruct h1 as [|st' h1]; injection Heq as -> ->.
        -- left. by rewrite Hup.
        -- right. by exists h1, up, h2.
Qed.

(** C5. Start from an account with no blob and let a caller invoke any
    operations of the hook, with any arguments, going on after exceptions.
    Then [check_for_blob] returns [True] for a container and a blob name
    exactly when one of the operations was a [load_file] or a [load_string]
    to that container and name that returned, and no [delete_file] aimed at
    that blob returned after it. *)
Theorem check_for_blob_iff_uploaded_not_deleted (self : WasbHook.t)
    (ops : list operation) (w0 : World) (container_name blob_name : string) :
  blobs w0 = ∅ →
  let '(w, h) := run_each sdk self ops w0 in
  result sdk (WasbHook.check_for_blob self container_name blob_name ∅) w
    = Returned (kept container_name blob_name h false) ∧
  (result sdk (WasbHook.check_for_blob self container_name blob_name ∅) w
     = Returned true ↔
   ∃ h1 up h2,
     h = h1 ++ up :: h2 ∧
     uploads container_name blob_name up = true ∧
     Forall (λ st, deletes container_name blob_name st = false) h2).
Proof.
  intros Hempty.
  pose proof (run_each_kept self ops container_name blob_name w0) as Hkept.
  destruct (run_each sdk self ops w0) as [w h]. cbn [fst snd] in Hkept.
  assert (has_blob w0 container_name blob_name = false) as Hnone.
  { unfold has_blob. rewrite Hempty, lookup_empty. apply bool_decide_false.
    by intros [? ?]. }
  rewrite Hnone in Hkept.
  assert (result sdk (WasbHook.check_for_blob self container_name blob_name ∅) w
          = Returned (kept container_name blob_name h false)) as Hres.
  { unfold result, WasbHook.check_for_blob. rewrite run_exists. cbn [sdk].
    rewrite accepts_empty. cbn [fst]. by rewrite <-Hkept. }
  split; [done|]. rewrite Hres. split.
  - intros [= Hh]. apply kept_true in Hh as [[? _]|?]; done.
  - intros Hup. f_equal. apply kept_true. by right.
Qed.

End ReferenceFacts.

(** ** The statements on the sample account *)

Module Witnesses.
Import Reference ReferenceFacts.

Lemma delete_file_nothing_to_delete_witness :
  run sdk (WasbHook.delete_file hook "c" "missing.txt" false true ∅) sample_world =
    (Returned tt, sample_world, [Called (Exists 0 "c" "missing.txt" ∅) None]).
Proof.
  apply (delete_file_nothing_to_delete sdk hook "c" "missing.txt" false true ∅
           sample_world sample_world [Called (Exists 0 "c" "missing.txt" ∅) None]).
  - exact sdk_read_only.
  - vm_compute. reflexivity.
Defined.

Lemma load_string_then_read_file_witness :
  result sdk
    (WasbHook.load_string hook "hello" "c" "a/1.txt" ∅ >>
     WasbHook.read_file hook "c" "a/1.txt" ∅) empty_world
    = Returned (VStr "hello").
Proof.
  apply (load_string_then_read_file sdk hook "hello" "c" "a/1.txt" empty_world).
  - exact sdk_text_round_trip.
  - vm_compute. reflexivity.
Defined.

Lemma check_for_prefix_iff_listing_nonempty_witness :
  result sdk (WasbHook.check_for_prefix hook "c" "a/" ∅) sample_world =
    outcome_map (λ l, bool_decide (l ≠ []))
      (result sdk (WasbHook.get_blobs_list hook "c" "a/" ∅) sample_world) ∧
  (result sdk (WasbHook.check_for_prefix hook "c" "a/" ∅) sample_world = Returned true ↔
   ∃ l, result sdk (WasbHook.get_blobs_list hook "c" "a/" ∅) sample_world = Returned l ∧
        l ≠ []).
Proof.
  apply (check_for_prefix_iff_listing_nonempty sdk hook "c" "a/" sample_world).
  exact sdk_honours_cap.
Defined.

Lemma check_for_blob_iff_uploaded_not_deleted_witness :
  let ops := [Load_string "hello" "c" "a/1.txt" ∅;
              Delete_file "c" "a/" true false ∅;
              Load_file "/tmp/report.csv" "c" "r.csv" ∅;
              Load_file "/tmp/missing.csv" "c" "m.csv" ∅] in
  let '(w, h) := run_each sdk hook ops empty_world in
  result sdk (WasbHook.check_for_blob hook "c" "r.csv" ∅) w
    = Returned (kept "c" "r.csv" h false) ∧
  (result sdk (WasbHook.check_for_blob hook "c" "r.csv" ∅) w = Returned true ↔
   ∃ h1 up h2,
     h = h1 ++ up :: h2 ∧
     uploads "c" "r.csv" up = true ∧
     Forall (λ st, deletes "c" "r.csv" st = false) h2).
Proof.
  apply (check_for_blob_iff_uploaded_not_deleted hook
           [Load_string "hello" "c" "a/1.txt" ∅;
            Delete_file "c" "a/" true false ∅;
            Load_file "/tmp/report.csv" "c" "r.csv" ∅;
            Load_file "/tmp/missing.csv" "c" "m.csv" ∅] empty_world "c" "r.csv").
  reflexivity.
Defined.

Lemma delete_file_stops_at_first_failure_witness :
  let down := sdk_unavailable "c" "a/2.txt" in
  let w1 := set_blobs (delete ("c", "a/1.txt")) sample_world in
  deletions hook "c" ∅ ["a/1.txt"] = deletions hook "c" ∅ ["a/1.txt"] ∧
  run down (WasbHook.delete_file hook "c" "a/" true false ∅) sample_world =
    (Raised (SdkError "ServerBusy"), w1,
     [Called (ListBlobs 0 "c" "a/" ∅) None]
       ++ deletions hook "c" ∅ ["a/1.txt"]
       ++ deletion hook "c" ∅ "a/2.txt" (Some (SdkError "ServerBusy"))).
Proof.
  cbn zeta.
  apply (delete_file_stops_at_first_failure (sdk_unavailable "c" "a/2.txt") hook "c" "a/"
           true false ∅ ["a/1.txt"] ["a/3.txt"] "a/2.txt"
           sample_world sample_world
           (set_blobs (delete ("c", "a/1.txt")) sample_world)
           (set_blobs (delete ("c", "a/1.txt")) sample_world)
           [Called (ListBlobs 0 "c" "a/" ∅) None]
           (deletions hook "c" ∅ ["a/1.txt"])
           (SdkError "ServerBusy")).
  - reflexivity.
  - vm_compute. reflexivity.
  - vm_compute. reflexivity.
  - vm_compute. reflexivity.
Defined.

Lemma delete_file_always_includes_snapshots_witness :
  (<["delete_snapshots" := VStr "include"]> ∅ : Kwargs) !! "delete_snapshots"
    = Some (VStr "include") ∧
  (<["delete_snapshots" := VStr "include"]> ∅ : Kwargs)
    = <["delete_snapshots" := VStr "include"]> ∅ ∧
  (∅ : Kwargs) !! "delete_snapshots" = None.
Proof.
  apply (delete_file_always_includes_snapshots sdk hook "c" "a/1.txt" false false ∅
           (<["delete_snapshots" := VStr "include"]> ∅) sample_world 0 "c" "a/1.txt" None).
  apply (bool_decide_unpack _). vm_compute. exact I.
Defined.



End Witnesses.

(** ** Keyword arguments the hook sets itself *)

Section KeywordConflicts.
Context {St : Type}.
Variable sdk : ∀ c : call, St → outcome (resp c) * St.
Variable self : WasbHook.t.

(** [check_for_prefix] sets [num_results] itself: a caller who passes it
    gets a [TypeError], and the SDK is never called. *)
Theorem check_for_prefix_refuses_num_results (container_name prefix : string)
    (kwargs : Kwargs) (v : pyval) (s : St) :
  kwargs !! "num_results" = Some v →
  run sdk (WasbHook.check_for_prefix self container_name prefix kwargs) s =
    (Raised (TypeError "got multiple values for keyword argument 'num_results'"), s, []).
Proof.
  intros Hkw. unfold WasbHook.check_for_prefix.
  by rewrite run_bind, run_with_keyword, Hkw.
Qed.

(** [delete_file] with [is_prefix] passes the blob name as [prefix]: a
    caller who passes [prefix] too gets a [TypeError] before anything is
    listed, logged or deleted. *)
Theorem delete_file_refuses_prefix_keyword (container_name blob_name : string)
    (ignore_if_missing : bool) (kwargs : Kwargs) (v : pyval) (s : St) :
  kwargs !! "prefix" = Some v →
  run sdk (WasbHook.delete_file self container_name blob_name true
             ignore_if_missing kwargs) s =
    (Raised (TypeError "got multiple values for keyword argument 'prefix'"), s, []).
Proof.
  intros Hkw. by rewrite run_delete_file, run_blobs_to_delete_prefix, Hkw.
Qed.

(** A caller who passes [delete_snapshots] to [delete_file] when there is
    something to delete gets a [TypeError] from the first turn of the loop:
    the log record of the first name is already written, but no blob is
    deleted and no [delete_blob] is called. *)
Theorem delete_file_logs_then_refuses_delete_snapshots
    (container_name blob_name : string) (is_prefix ignore_if_missing : bool)
    (kwargs : Kwargs) (v : pyval) (first : string) (others : list string)
    (s s0 : St) (t0 : list event) :
  kwargs !! "delete_snapshots" = Some v →
  run sdk (WasbHook.blobs_to_delete self container_name blob_name is_prefix kwargs) s
    = (Returned (first :: others), s0, t0) →
  run sdk (WasbHook.delete_file self container_name blob_name is_prefix
             ignore_if_missing kwargs) s =
    (Raised (TypeError "got multiple values for keyword argument 'delete_snapshots'"),
     s0, t0 ++ [Logged ("Deleting blob: " +:+ first)]).
Proof.
  intros Hkw Hq. rewrite run_delete_file, Hq.
  replace (negb ignore_if_missing && bool_decide (length (first :: others) = 0))
    with false by (by rewrite bool_decide_false, andb_false_r).
  by rewrite (run_delete_each_refused _ _ _ _ _ _ v).
Qed.

End KeywordConflicts.

(** ** Building the client *)

Section Construction.
Context {St : Type}.
Variable sdk : ∀ c : call, St → outcome (resp c) * St.

Lemma run_get_conn (conn_id : string) (s : St) :
  run sdk (WasbHook.get_conn conn_id) s =
    match sdk (GetConnection conn_id) s with
    | (Raised e, s1) => (Raised e, s1, [Called (GetConnection conn_id) (Some e)])
    | (Returned conn, s1) =>
        match extra_dejson conn !! "account_key" with
        | Some _ =>
            (Raised (TypeError "got multiple values for keyword argument 'account_key'"),
             s1, [Called (GetConnection conn_id) None])
        | None =>
            match extra_dejson conn !! "account_name" with
            | Some _ =>
                (Raised (TypeError "got multiple values for keyword argument 'account_name'"),
                 s1, [Called (GetConnection conn_id) None])
            | None =>
                let kw := <["account_name" := login conn]>
                            (<["account_key" := password conn]> (extra_dejson conn)) in
                match sdk (NewBlockBlobService kw) s1 with
                | (Returned h, s2) =>
                    (Returned h, s2,
                     [Called (GetConnection conn_id) None;
                      Called (NewBlockBlobService kw) None])
                | (Raised e, s2) =>
                    (Raised e, s2,
                     [Called (GetConnection conn_id) None;
                      Called (NewBlockBlobService kw) (Some e)])
                end
            end
        end
    end.
Proof.
  unfold WasbHook.get_conn. rewrite run_bind, run_get_connection.
  destruct (sdk (GetConnection conn_id) s) as [[conn|e] s1]; [|done].
  rewrite run_bind, run_with_keyword.
  destruct (extra_dejson conn !! "account_key"); [done|]. cbn beta iota.
  rewrite run_bind, run_with_keyword, lookup_insert_ne by done.
  destruct (extra_dejson conn !! "account_name"); [done|]. cbn beta iota zeta.
  rewrite run_new. by destruct (sdk (NewBlockBlobService _) s1) as [[h|e] s2].
Qed.

(** [__init__] builds the client from the connection it looked up: the
    login as [account_name], the password as [account_key], and every entry
    of the extra field as it is.  What the constructor returns is
    [self.connection]; what it raises, [__init__] raises. *)
Theorem init_builds_client_from_connection (wasb_conn_id : string) (conn : Connection)
    (s s1 : St) :
  sdk (GetConnection wasb_conn_id) s = (Returned conn, s1) →
  extra_dejson conn !! "account_name" = None →
  extra_dejson conn !! "account_key" = None →
  ∃ kw : Kwargs,
    kw !! "account_name" = Some (login conn) ∧
    kw !! "account_key" = Some (password conn) ∧
    (∀ k, k ≠ "account_name" → k ≠ "account_key" → kw !! k = extra_dejson conn !! k) ∧
    run sdk (WasbHook.__init__ wasb_conn_id) s =
      match sdk (NewBlockBlobService kw) s1 with
      | (Returned h, s2) =>
          (Returned {| WasbHook.conn_id := wasb_conn_id; WasbHook.connection := h |}, s2,
           [Called (GetConnection wasb_conn_id) None;
            Called (NewBlockBlobService kw) None])
      | (Raised e, s2) =>
          (Raised e, s2,
           [Called (GetConnection wasb_conn_id) None;
            Called (NewBlockBlobService kw) (Some e)])
      end.
Proof.
  intros Hconn Hname Hkey.
  exists (<["account_name" := login conn]>
            (<["account_key" := password conn]> (extra_dejson conn))).
  split; [apply lookup_insert_eq|].
  split; [by rewrite lookup_insert_ne, lookup_insert_eq|].
  split; [intros k Hk1 Hk2; by rewrite !lookup_insert_ne|].
  unfold WasbHook.__init__. rewrite run_bind, run_get_conn, Hconn, Hkey, Hname.
  cbn zeta. by destruct (sdk (NewBlockBlobService _) s1) as [[h|e] s2].
Qed.

(** A connection whose extra field has an [account_name] or an
    [account_key] of its own cannot be used: [__init__] raises a [TypeError]
    after the look-up, and no client is built. *)
Theorem init_refuses_credentials_in_extra (wasb_conn_id : string) (conn : Connection)
    (s s1 : St) :
  sdk (GetConnection wasb_conn_id) s = (Returned conn, s1) →
  is_Some (extra_dejson conn !! "account_name") ∨
  is_Some (extra_dejson conn !! "account_key") →
  ∃ msg,
    run sdk (WasbHook.__init__ wasb_conn_id) s =
      (Raised (TypeError msg), s1, [Called (GetConnection wasb_conn_id) None]).
Proof.
  intros Hconn Hextra.
  unfold WasbHook.__init__. rewrite run_bind, run_get_conn, Hconn.
  destruct (extra_dejson conn !! "account_key") as [v|] eqn:Hkey; [by eexists|].
  destruct (extra_dejson conn !! "account_name") as [v|] eqn:Hname; [by eexists|].
  by destruct Hextra as [[? ?]|[? ?]].
Qed.

(** [get_conn] keeps nothing: called twice, it looks the connection up
    twice and builds two clients. *)
Theorem get_conn_builds_a_client_each_time (conn_id : string) (s : St) (h : handle) :
  result sdk (WasbHook.get_conn conn_id >> WasbHook.get_conn conn_id) s = Returned h →
  ∃ kw1 kw2,
    trace sdk (WasbHook.get_conn conn_id >> WasbHook.get_conn conn_id) s =
      [Called (GetConnection conn_id) None; Called (NewBlockBlobService kw1) None;
       Called (GetConnection conn_id) None; Called (NewBlockBlobService kw2) None].
Proof.
  unfold result, trace. rewrite run_bind, !run_get_conn.
  destruct (sdk (GetConnection conn_id) s) as [[conn|e] s1]; [|done].
  destruct (extra_dejson conn !! "account_key"); [done|].
  destruct (extra_dejson conn !! "account_name"); [done|]. cbn zeta.
  destruct (sdk (NewBlockBlobService _) s1) as [[h1|e] s2]; [|done].
  rewrite run_get_conn.
  destruct (sdk (GetConnection conn_id) s2) as [[conn2|e] s3]; [|done].
  destruct (extra_dejson conn2 !! "account_key"); [done|].
  destruct (extra_dejson conn2 !! "account_name"); [done|]. cbn zeta.
  destruct (sdk (NewBlockBlobService _) s3) as [[h2|e] s4]; [|done].
  intros _. by eexists _, _.
Qed.

End Construction.

(** ** What every operation does with the SDK's answers *)

Section Propagation.
Context {St : Type}.
Variable sdk : ∀ c : call, St → outcome (resp c) * St.

(** With an SDK whose queries are read-only, [check_for_blob],
    [check_for_prefix], [get_blobs_list] and [read_file] leave the state as
    it is, whatever the keyword arguments and whether they return or
    raise. *)
Theorem read_operations_change_nothing (self : WasbHook.t) (op : operation) (s : St) :
  read_only sdk →
  is_read op = true →
  final sdk (invoke self op) s = s.
Proof.
  intros Hro Hop. unfold final.
  destruct op as [c b kw|c p kw|c p kw|f c b kw|d c b kw|f c b kw|c b kw|c b ip ign kw];
    try discriminate; cbn [invoke]; rewrite run_bind.
  - unfold WasbHook.check_for_blob. rewrite run_exists.
    pose proof (Hro (Exists (WasbHook.connection self) c b kw) s eq_refl) as Hs.
    by destruct (sdk _ s) as [[x|e] s1]; cbn [snd] in Hs; subst.
  - unfold WasbHook.check_for_prefix. rewrite run_bind, run_with_keyword.
    destruct (kw !! "num_results"); [done|]. cbn beta iota.
    rewrite run_bind, run_list_blobs.
    pose proof (Hro (ListBlobs (WasbHook.connection self) c p
                       (<["num_results" := VInt 1]> kw)) s eq_refl) as Hs.
    by destruct (sdk _ s) as [[x|e] s1]; cbn [snd] in Hs; subst.
  - unfold WasbHook.get_blobs_list. rewrite run_list_blobs.
    pose proof (Hro (ListBlobs (WasbHook.connection self) c p kw) s eq_refl) as Hs.
    by destruct (sdk _ s) as [[x|e] s1]; cbn [snd] in Hs; subst.
  - unfold WasbHook.read_file. rewrite run_bind, run_get_blob_to_text.
    pose proof (Hro (GetBlobToText (WasbHook.connection self) c b kw) s eq_refl) as Hs.
    by destruct (sdk _ s) as [[x|e] s1]; cbn [snd] in Hs; subst.
Qed.

End Propagation.

(** ** Operations composed, on the reference client *)

Module ReferenceUse.
Import Reference ReferenceFacts.

Section Use.
Variable self : WasbHook.t.

Lemma run_check_for_blob (c b : string) (w : World) :
  run sdk (WasbHook.check_for_blob self c b ∅) w =
    (Returned (has_blob w c b), w, [Called (Exists (WasbHook.connection self) c b ∅) None]).
Proof.
  unfold WasbHook.check_for_blob. rewrite run_exists. cbn [sdk].
  by rewrite accepts_empty.
Qed.

Lemma result_check_for_prefix (c p : string) (w : World) :
  result sdk (WasbHook.check_for_prefix self c p ∅) w =
    Returned (bool_decide (matching c p (blobs w) ≠ [])).
Proof.
  unfold result, WasbHook.check_for_prefix.
  rewrite run_bind, run_with_keyword, lookup_empty. cbn beta iota.
  rewrite run_bind, run_list_blobs.
  pose proof (sdk_honours_cap (WasbHook.connection self) c p w) as Hcap.
  rewrite sdk_list_blobs_all in Hcap. cbn [fst outcome_map] in Hcap.
  destruct (sdk (ListBlobs _ _ _ (<[_ := _]> ∅)) w) as [[l|e] w1];
    cbn [fst] in Hcap; [|done].
  injection Hcap as ->. cbn [run fst]. f_equal.
  destruct (matching c p (blobs w)) as [|n l]; [done|].
  cbn [fmap list_fmap take length].
  rewrite bool_decide_true by lia. by rewrite bool_decide_true.
Qed.

(** What [delete_file] leaves of the account, and what it answers. *)
Lemma run_delete_file_reference (c b : string) (is_prefix ignore_if_missing : bool)
    (w : World) :
  let bs := if is_prefix then matching c b (blobs w)
            else if has_blob w c b then [b] else [] in
  ∃ t,
    run sdk (WasbHook.delete_file self c b is_prefix ignore_if_missing ∅) w =
      (if negb ignore_if_missing && bool_decide (length bs = 0)
       then Raised (AirflowException ("Blob(s) not found: " +:+ b))
       else Returned tt,
       set_blobs (λ m, foldl (λ m n, delete (c, n) m) m bs) w,
       t).
Proof.
  cbn zeta. rewrite run_delete_file.
  assert (run sdk (WasbHook.blobs_to_delete self c b is_prefix ∅) w =
          (Returned (if is_prefix then matching c b (blobs w)
                     else if has_blob w c b then [b] else []), w,
           [Called (query self c b is_prefix ∅) None])) as ->.
  { destruct is_prefix.
    - rewrite run_blobs_to_delete_prefix, lookup_empty. cbn zeta.
      by rewrite sdk_list_blobs_all, name_listed.
    - rewrite run_blobs_to_delete_single. cbn zeta. cbn [sdk].
      rewrite accepts_empty. fold (has_blob w c b). by destruct (has_blob w c b). }
  set (bs := if is_prefix then _ else _).
  destruct (negb ignore_if_missing && bool_decide (length bs = 0)) eqn:Hempty.
  - apply andb_true_iff in Hempty as [_ Hnil%bool_decide_eq_true].
    apply nil_length_inv in Hnil. rewrite Hnil. eexists. cbn [foldl].
    by destruct w.
  - rewrite run_delete_each_present; [by eexists| |].
    + subst bs. destruct is_prefix; [apply NoDup_matching|].
      destruct (has_blob w c b); [apply NoDup_singleton|constructor].
    + subst bs. intros n Hn. destruct is_prefix.
      * by apply elem_of_matching in Hn as [? _].
      * unfold has_blob in Hn. case_bool_decide as Hb; [|by apply elem_of_nil in Hn].
        by apply list_elem_of_singleton in Hn as ->.
Qed.

(** Without [is_prefix], [delete_file] removes the named blob and no other:
    the account afterwards is the account before without that blob, and
    [check_for_blob] on it returns [False].  It raises only when the blob
    was not there and [ignore_if_missing] is not set. *)
Theorem delete_file_removes_only_its_blob (container_name blob_name : string)
    (ignore_if_missing : bool) (w : World) :
  let '(r, w', _) :=
    run sdk (WasbHook.delete_file self container_name blob_name false
               ignore_if_missing ∅) w in
  w' = set_blobs (delete (container_name, blob_name)) w ∧
  result sdk (WasbHook.check_for_blob self container_name blob_name ∅) w'
    = Returned false ∧
  r = if negb ignore_if_missing && negb (has_blob w container_name blob_name)
      then Raised (AirflowException ("Blob(s) not found: " +:+ blob_name))
      else Returned tt.
Proof.
  destruct (run_delete_file_reference container_name blob_name false ignore_if_missing w)
    as [t ->]. cbn zeta.
  assert (set_blobs (λ m, foldl (λ m n, delete (container_name, n) m) m
            (if has_blob w container_name blob_name then [blob_name] else [])) w
          = set_blobs (delete (container_name, blob_name)) w) as ->.
  { unfold set_blobs, has_blob. case_bool_decide as Hb; [done|]. cbn [foldl].
    rewrite delete_id; [done|]. by apply eq_None_not_Some. }
  split; [done|]. split.
  - unfold result. rewrite run_check_for_blob. cbn [fst]. f_equal.
    unfold has_blob. cbn [set_blobs blobs]. rewrite lookup_delete_eq.
    apply bool_decide_false. by intros [? ?].
  - by destruct (has_blob w container_name blob_name).
Qed.

(** With [ignore_if_missing], deleting twice is deleting once: the second
    [delete_file] returns and changes nothing, with or without
    [is_prefix]. *)
Theorem delete_file_twice_is_once (container_name blob_name : string)
    (is_prefix : bool) (w : World) :
  let p := WasbHook.delete_file self container_name blob_name is_prefix true ∅ in
  result sdk (p >> p) w = Returned tt ∧
  final sdk (p >> p) w = final sdk p w.
Proof.
  cbn zeta. unfold result, final. rewrite run_bind.
  destruct (run_delete_file_reference container_name blob_name is_prefix true w)
    as [t ->]. cbn zeta. cbn [negb andb].
  set (w1 := set_blobs _ w).
  destruct (run_delete_file_reference container_name blob_name is_prefix true w1)
    as [t1 ->]. cbn zeta. cbn [negb andb fst snd].
  split; [done|].
  assert ((if is_prefix then matching container_name blob_name (blobs w1)
           else if has_blob w1 container_name blob_name then [blob_name] else []) = [])
    as ->; [|done].
  subst w1. cbn [set_blobs blobs]. destruct is_prefix.
  - rewrite foldl_delete_matching. apply matching_filter_nil.
  - unfold has_blob at 1. rewrite bool_decide_false; [done|].
    cbn [set_blobs blobs]. unfold has_blob. case_bool_decide as Hb; cbn [foldl].
    + rewrite lookup_delete_eq. by intros [? ?].
    + done.
Qed.

(** With [is_prefix] and the empty prefix, [delete_file] empties the
    container and touches no other container. *)
Theorem delete_file_empty_prefix_empties_container (container_name : string)
    (ignore_if_missing : bool) (w : World) (c b : string) :
  blobs (final sdk (WasbHook.delete_file self container_name EmptyString true
                      ignore_if_missing ∅) w) !! (c, b) =
  if decide (c = container_name) then None else blobs w !! (c, b).
Proof.
  unfold final.
  destruct (run_delete_file_reference container_name EmptyString true ignore_if_missing w)
    as [t ->]. cbn zeta. cbn [fst snd set_blobs blobs].
  rewrite lookup_foldl_delete. cbn [fst snd].
  destruct (decide (c = container_name)) as [->|Hc].
  - destruct (decide (container_name = container_name ∧
                      b ∈ matching container_name EmptyString (blobs w)))
      as [_|Hnot]; [done|].
    apply eq_None_not_Some. intros Hsome. apply Hnot. split; [done|].
    apply elem_of_matching. split; [done|]. by destruct b.
  - rewrite decide_False; [done|]. by intros [? _].
Qed.

(** [check_for_prefix] returns [True] exactly when some blob of the
    container whose name starts with the prefix is one [check_for_blob]
    finds. *)
Theorem check_for_prefix_iff_some_blob (container_name prefix : string) (w : World) :
  result sdk (WasbHook.check_for_prefix self container_name prefix ∅) w = Returned true ↔
  ∃ b, String.prefix prefix b = true ∧
       result sdk (WasbHook.check_for_blob self container_name b ∅) w = Returned true.
Proof.
  rewrite result_check_for_prefix. split.
  - intros [= Hne%bool_decide_eq_true].
    destruct (matching container_name prefix (blobs w)) as [|b l] eqn:Hm; [done|].
    assert (b ∈ matching container_name prefix (blobs w)) as Hb by (rewrite Hm; left).
    apply elem_of_matching in Hb as [Hsome Hp]. exists b. split; [done|].
    unfold result. rewrite run_check_for_blob. cbn [fst]. f_equal.
    by apply bool_decide_true.
  - intros (b & Hp & Hb). unfold result in Hb. rewrite run_check_for_blob in Hb.
    cbn [fst] in Hb. injection Hb as Hb%bool_decide_eq_true.
    f_equal. apply bool_decide_true. intros Hnil.
    assert (b ∈ matching container_name prefix (blobs w)) as Hin
      by (by apply elem_of_matching).
    rewrite Hnil in Hin. by apply elem_of_nil in Hin.
Qed.

(** [load_file] of a local file followed by [read_file] of the blob returns
    the content of the file. *)
Theorem load_file_then_read_file (file_path container_name blob_name data : string)
    (w : World) :
  files w !! file_path = Some data →
  result sdk
    (WasbHook.load_file self file_path container_name blob_name ∅ >>
     WasbHook.read_file self container_name blob_name ∅) w
    = Returned (VStr data).
Proof.
  intros Hfile. unfold result, WasbHook.load_file, WasbHook.read_file.
  rewrite run_bind, run_create_blob_from_path. cbn [sdk].
  rewrite accepts_empty, Hfile.
  rewrite run_bind, run_get_blob_to_text. cbn [sdk].
  rewrite accepts_empty. cbn [set_blobs blobs]. by rewrite lookup_insert_eq.
Qed.

(** [load_string] followed by [get_file] of the blob writes the string to
    the local path, leaves every other local file as it was, and leaves the
    blob in place. *)
Theorem load_string_then_get_file (string_data file_path container_name blob_name : string)
    (w : World) :
  let p := WasbHook.load_string self string_data container_name blob_name ∅ >>
           WasbHook.get_file self file_path container_name blob_name ∅ in
  (∃ blob, result sdk p w = Returned blob) ∧
  files (final sdk p w) = <[file_path := string_data]> (files w) ∧
  blobs (final sdk p w) !! (container_name, blob_name) = Some string_data.
Proof.
  cbn zeta. unfold result, final, WasbHook.load_string, WasbHook.get_file.
  rewrite run_bind, run_create_blob_from_text. cbn [sdk].
  rewrite accepts_empty.
  rewrite run_get_blob_to_path. cbn [sdk].
  rewrite accepts_empty. cbn [set_blobs blobs]. rewrite lookup_insert_eq.
  cbn [fst snd set_files set_blobs files blobs].
  split; [by eexists|]. split; [done|]. apply lookup_insert_eq.
Qed.

(** [load_string] changes the blob it is given and no other: what
    [read_file] returns or raises for another container or name is what it
    did before the upload. *)
Theorem load_string_changes_only_its_blob (string_data container_name blob_name : string)
    (c b : string) (w : World) :
  (c, b) ≠ (container_name, blob_name) →
  result sdk
    (WasbHook.load_string self string_data container_name blob_name ∅ >>
     WasbHook.read_file self c b ∅) w
    = result sdk (WasbHook.read_file self c b ∅) w.
Proof.
  intros Hne. unfold result, WasbHook.load_string, WasbHook.read_file.
  rewrite run_bind, run_create_blob_from_text. cbn [sdk].
  rewrite accepts_empty.
  rewrite !run_bind, !run_get_blob_to_text. cbn [sdk].
  rewrite accepts_empty. cbn [set_blobs blobs].
  rewrite lookup_insert_ne by done.
  by destruct (blobs w !! (c, b)).
Qed.

End Use.
End ReferenceUse.

(** ** More statements on the sample account *)

Module Examples.
Import Reference ReferenceFacts ReferenceUse.

Lemma check_for_prefix_refuses_num_results_witness :
  run sdk (WasbHook.check_for_prefix hook "c" "a/" {[ "num_results" := VInt 5 ]})
    sample_world =
    (Raised (TypeError "got multiple values for keyword argument 'num_results'"),
     sample_world, []).
Proof.
  apply (check_for_prefix_refuses_num_results sdk hook "c" "a/"
           {[ "num_results" := VInt 5 ]} (VInt 5) sample_world).
  reflexivity.
Defined.

Lemma delete_file_refuses_prefix_keyword_witness :
  run sdk (WasbHook.delete_file hook "c" "a/" true false {[ "prefix" := VStr "b" ]})
    sample_world =
    (Raised (TypeError "got multiple values for keyword argument 'prefix'"),
     sample_world, []).
Proof.
  apply (delete_file_refuses_prefix_keyword sdk hook "c" "a/" false
           {[ "prefix" := VStr "b" ]} (VStr "b") sample_world).
  reflexivity.
Defined.

Lemma delete_file_logs_then_refuses_delete_snapshots_witness :
  run sdk (WasbHook.delete_file hook "c" "b.txt" false false
             {[ "delete_snapshots" := VStr "only" ]}) sample_world =
    (Raised (TypeError "got multiple values for keyword argument 'delete_snapshots'"),
     sample_world,
     [Called (Exists 0 "c" "b.txt" ∅) None] ++ [Logged ("Deleting blob: " +:+ "b.txt")]).
Proof.
  apply (delete_file_logs_then_refuses_delete_snapshots sdk hook "c" "b.txt" false false
           {[ "delete_snapshots" := VStr "only" ]} (VStr "only") "b.txt" []
           sample_world sample_world [Called (Exists 0 "c" "b.txt" ∅) None]).
  - reflexivity.
  - vm_compute. reflexivity.
Defined.

Lemma init_builds_client_from_connection_witness :
  ∃ kw : Kwargs,
    kw !! "account_name" = Some (VStr "account") ∧
    kw !! "account_key" = Some (VStr "key") ∧
    (∀ k, k ≠ "account_name" → k ≠ "account_key" → kw !! k = (∅ : Kwargs) !! k) ∧
    run sdk (WasbHook.__init__ "wasb_default") empty_world =
      match sdk (NewBlockBlobService kw) empty_world with
      | (Returned h, s2) =>
          (Returned {| WasbHook.conn_id := "wasb_default"; WasbHook.connection := h |}, s2,
           [Called (GetConnection "wasb_default") None;
            Called (NewBlockBlobService kw) None])
      | (Raised e, s2) =>
          (Raised e, s2,
           [Called (GetConnection "wasb_default") None;
            Called (NewBlockBlobService kw) (Some e)])
      end.
Proof.
  apply (init_builds_client_from_connection sdk "wasb_default"
           {| login := VStr "account"; password := VStr "key"; extra_dejson := ∅ |}
           empty_world empty_world).
  - vm_compute. reflexivity.
  - reflexivity.
  - reflexivity.
Defined.

Lemma init_refuses_credentials_in_extra_witness :
  ∃ msg,
    run sdk (WasbHook.__init__ "wasb_default") misconfigured_world =
      (Raised (TypeError msg), misconfigured_world,
       [Called (GetConnection "wasb_default") None]).
Proof.
  apply (init_refuses_credentials_in_extra sdk "wasb_default"
           {| login := VStr "account"; password := VStr "key";
              extra_dejson := {[ "account_name" := VStr "other" ]} |}
           misconfigured_world misconfigured_world).
  - vm_compute. reflexivity.
  - left. exists (VStr "other"). reflexivity.
Defined.

Lemma get_conn_builds_a_client_each_time_witness :
  ∃ kw1 kw2,
    trace sdk (WasbHook.get_conn "wasb_default" >> WasbHook.get_conn "wasb_default")
      empty_world =
      [Called (GetConnection "wasb_default") None; Called (NewBlockBlobService kw1) None;
       Called (GetConnection "wasb_default") None; Called (NewBlockBlobService kw2) None].
Proof.
  apply (get_conn_builds_a_client_each_time sdk "wasb_default" empty_world 1).
  vm_compute. reflexivity.
Defined.

Lemma read_operations_change_nothing_witness :
  final sdk (invoke hook (Read_file "c" "a/1.txt" ∅)) sample_world = sample_world.
Proof.
  apply (read_operations_change_nothing sdk hook (Read_file "c" "a/1.txt" ∅) sample_world).
  - exact sdk_read_only.
  - reflexivity.
Defined.

Lemma load_file_then_read_file_witness :
  result sdk
    (WasbHook.load_file hook "/tmp/report.csv" "c" "r.csv" ∅ >>
     WasbHook.read_file hook "c" "r.csv" ∅) empty_world
    = Returned (VStr "a,b").
Proof.
  apply (load_file_then_read_file hook "/tmp/report.csv" "c" "r.csv" "a,b" empty_world).
  reflexivity.
Defined.

Lemma load_string_changes_only_its_blob_witness :
  result sdk
    (WasbHook.load_string hook "new" "c" "a/2.txt" ∅ >>
     WasbHook.read_file hook "c" "a/1.txt" ∅) sample_world
    = result sdk (WasbHook.read_file hook "c" "a/1.txt" ∅) sample_world.
Proof.
  apply (load_string_changes_only_its_blob hook "new" "c" "a/2.txt" "c" "a/1.txt"
           sample_world).
  discriminate.
Defined.

End Examples.
